(** * java/builder.go: Java build-rule declarations and classpath rendering

    A shallow embedding of [src/java/builder.go].  Go strings are byte
    strings ([string]); a Go slice is either [nil] or carries its
    elements; a pointer receiver is either the nil pointer or points to a
    value; a function that can panic returns an [outcome]; the functions
    that talk to the module context thread the context's record of
    reported errors and declared build statements. *)

From stdpp Require Import base option list strings gmap.
From Stdlib Require Import Strings.Ascii.

(** ** The pieces of Go's [strings] package that the file uses *)

Module strings.

(** [s[i:]] for [i <= len(s)]. *)
Definition from (i : nat) (s : string) : string :=
  String.substring i (String.length s - i) s.

(** [s[:i]] for [i <= len(s)]. *)
Definition upto (i : nat) (s : string) : string :=
  String.substring 0 i s.

(** [func HasSuffix(s, suffix string) bool]:
    [len(s) >= len(suffix) && s[len(s)-len(suffix):] == suffix]. *)
Definition HasSuffix (s suffix : string) : bool :=
  (String.length suffix <=? String.length s)%nat
  && String.eqb (from (String.length s - String.length suffix) s) suffix.

(** [func TrimSuffix(s, suffix string) string]. *)
Definition TrimSuffix (s suffix : string) : string :=
  if HasSuffix s suffix
  then upto (String.length s - String.length suffix) s
  else s.

(** [func Join(a []string, sep string) string]; a nil slice joins like an
    empty one. *)
Fixpoint Join (a : list string) (sep : string) : string :=
  match a with
  | [] => EmptyString
  | [s] => s
  | s :: rest => s +:+ sep +:+ Join rest sep
  end.

End strings.

(** ** Slices, pointers and panics *)

(** A slice value: [None] is Go's [nil] slice, [Some l] a non-nil slice with
    elements [l] (possibly none). *)
Definition slice (A : Type) : Type := option (list A).

(** The elements a [range] loop visits; [len] counts them. *)
Definition elems {A} (s : slice A) : list A := default [] s.

Definition len {A} (s : slice A) : nat := length (elems s).

(** [append(s, ys...)]: with nothing to add the slice is returned as it is
    (a nil slice stays nil), otherwise the result is a non-nil slice. *)
Definition append {A} (s : slice A) (ys : list A) : slice A :=
  match ys with
  | [] => s
  | _ :: _ => Some (elems s ++ ys)
  end.

(** [make([]string, n)]: [n] zero values. *)
Definition make (n : nat) : list string := replicate n EmptyString.

(** A pointer: [None] is the nil pointer. *)
Definition ptr (A : Type) : Type := option A.

(** What a call yields: a value, or a panic that unwinds the caller. *)
Inductive outcome (A : Type) : Type :=
| Return (a : A)
| Panic (msg : string).
Arguments Return {A} a.
Arguments Panic {A} msg.

Definition nil_dereference : string :=
  "invalid memory address or nil pointer dereference".

(** [*x]. *)
Definition deref {A} (x : ptr A) : outcome A :=
  match x with
  | Some v => Return v
  | None => Panic nil_dereference
  end.

Definition obind {A B} (o : outcome A) (k : A -> outcome B) : outcome B :=
  match o with
  | Return a => k a
  | Panic msg => Panic msg
  end.

#[global] Instance outcome_ret : MRet outcome := @Return.
#[global] Instance outcome_bind : MBind outcome := fun A B k o => obind o k.

(** ** Paths and classpaths *)

(** [android.Path]: the file touches a path only through [String()]. *)
Record Path : Type := mkPath { String : string }.

Definition Paths : Type := slice Path.

(** [type classpath []android.Path]. *)
Definition classpath : Type := slice Path.

(** The double-quote character, and the two-character text of an empty
    shell word. *)
Definition dquote : string := String.String "034"%char EmptyString.
Definition empty_word : string := dquote +:+ dquote.

(** The loop shared by [Strings], [DesugarBootClasspath] and
    [DesugarClasspath]: [for i, v := range *x { flags[i] = f(v) }]. *)
Fixpoint fill (f : Path -> string) (i : nat) (vs : list Path)
    (flags : list string) : list string :=
  match vs with
  | [] => flags
  | v :: rest => fill f (S i) rest (<[i := f v]> flags)
  end.

(** [func (x *classpath) Strings() []string]. *)
Definition Strings (x : ptr classpath) : outcome (slice string) :=
  match x with
  | None => Return None
  | Some c => Return (Some (fill String 0 (elems c) (make (len c))))
  end.

(** [strings.Join(x.Strings(), ":")]. *)
Definition joined (x : ptr classpath) : outcome string :=
  ss ← Strings x;
  Return (strings.Join (elems ss) ":").

(** [func (x *classpath) JavaSourcepath() string]. *)
Definition JavaSourcepath (x : ptr classpath) : outcome string :=
  c ← deref x;
  if (0 <? len c)%nat then
    j ← joined x; Return ("-sourcepath " +:+ j)
  else Return ("-sourcepath " +:+ empty_word).

(** [func (x *classpath) JavaClasspath() string]. *)
Definition JavaClasspath (x : ptr classpath) : outcome string :=
  c ← deref x;
  if (0 <? len c)%nat then
    j ← joined x; Return ("-classpath " +:+ j)
  else Return EmptyString.

(** [func (x *classpath) JavaProcessorpath() string]. *)
Definition JavaProcessorpath (x : ptr classpath) : outcome string :=
  c ← deref x;
  if (0 <? len c)%nat then
    j ← joined x; Return ("-processorpath " +:+ j)
  else Return EmptyString.

(** [func (x *classpath) JavaBootClasspath(forceEmpty bool) string]. *)
Definition JavaBootClasspath (x : ptr classpath) (forceEmpty : bool)
    : outcome string :=
  c ← deref x;
  if (0 <? len c)%nat then
    j ← joined x; Return ("-bootclasspath " +:+ j)
  else if forceEmpty then Return ("-bootclasspath " +:+ empty_word)
  else Return EmptyString.

(** [func (x *classpath) JavaSystemModules(forceEmpty bool) string]. *)
Definition JavaSystemModules (x : ptr classpath) (forceEmpty : bool)
    : outcome string :=
  c ← deref x;
  if (1 <? len c)%nat then Panic "more than one system module"
  else if (len c =? 1)%nat then
    match elems c !! 0%nat with
    | Some p => Return ("--system=" +:+ strings.TrimSuffix (String p) "lib/modules")
    | None => Panic "index out of range"
    end
  else if forceEmpty then Return "--system=none"
  else Return EmptyString.

(** [func (x *classpath) DesugarBootClasspath() []string]. *)
Definition DesugarBootClasspath (x : ptr classpath) : slice string :=
  match x with
  | None | Some None => None
  | Some (Some vs) =>
      Some (fill (fun v => "--bootclasspath_entry " +:+ String v) 0 vs
                 (make (length vs)))
  end.

(** [func (x *classpath) DesugarClasspath() []string]. *)
Definition DesugarClasspath (x : ptr classpath) : slice string :=
  match x with
  | None | Some None => None
  | Some (Some vs) =>
      Some (fill (fun v => "--classpath_entry " +:+ String v) 0 vs
                 (make (length vs)))
  end.

(** [func (x *classpath) AddPaths(paths android.Paths)]: the receiver after
    the call, which appends each path to the slice behind the receiver and
    stores the result through it; without paths the receiver is not
    looked at. *)
Definition AddPaths (x : ptr classpath) (paths : Paths)
    : outcome (ptr classpath) :=
  foldl (fun acc path =>
           x' ← acc; c ← deref x'; Return (Some (append c [path])))
        (Return x) (elems paths).

(** [func (x *classpath) Paths() android.Paths]: the elements behind the
    receiver appended to a nil [android.Paths]. *)
Definition Paths_ (x : ptr classpath) : outcome Paths :=
  c ← deref x; Return (append None (elems c)).

(** ** Build statements and the module context *)

(** One piece of a rule's command template: literal text, a [$name] or
    [${name}] reference, or the escaped dollar [$$]. *)
Inductive piece : Type :=
| Lit (s : string)
| Var (name : string)
| Dollar.

(** [blueprint.RuleParams] with the rule's name and argument names;
    [goma] tells [AndroidGomaStaticRule] from [AndroidStaticRule]. *)
Record Rule : Type := mkRule {
  rule_name : string;
  goma : bool;
  Command : list piece;
  CommandDeps : list string;
  Rspfile : list piece;
  RspfileContent : list piece;
  argNames : list string;
}.

(** [android.ModuleBuildParams], with the fields the file sets. *)
Record ModuleBuildParams : Type := mkParams {
  rule : Rule;
  Description : string;
  Output : Path;
  Input : option Path;
  Inputs : Paths;
  Implicit : option Path;
  Implicits : Paths;
  Args : gmap string string;
}.

(** What the module context has collected: the errors reported through
    [ModuleErrorf] and the build statements declared through
    [ModuleBuild], oldest first. *)
Record actions : Type := mkActions {
  errs : list string;
  buildDefs : list ModuleBuildParams;
}.

(** The read-only side of [android.ModuleContext]. *)
Record ModuleContext : Type := mkContext {
  Device : bool;
  UseOpenJDK9 : bool;
  PathForModuleOut : string -> Path;
}.

(** Package [config]: the Go variable [ErrorProneJar] and the values of
    the [${config.*}] build variables. *)
Record Config : Type := mkConfig {
  ErrorProneJar : string;
  configVar : string -> string;
}.

(** A call on the module context: it yields a value or panics, and leaves
    the context's collected actions behind in both cases. *)
Definition Build (A : Type) : Type := actions -> outcome A * actions.

Definition ret {A} (a : A) : Build A := fun st => (Return a, st).

Definition bind {A B} (m : Build A) (k : A -> Build B) : Build B :=
  fun st =>
    match m st with
    | (Return a, st') => k a st'
    | (Panic msg, st') => (Panic msg, st')
    end.

(** A call that does not touch the context. *)
Definition pure {A} (o : outcome A) : Build A := fun st => (o, st).

#[global] Instance Build_ret : MRet Build := @ret.
#[global] Instance Build_bind : MBind Build := fun A B k m => bind m k.

(** [ctx.ModuleErrorf(msg)], blueprint's method: the error is added to the
    errors of the module and the call returns to its caller; the engine
    fails the build once the module's actions have been generated. *)
Definition ModuleErrorf (msg : string) : Build unit :=
  fun st => (Return tt, mkActions (errs st ++ [msg]) (buildDefs st)).

(** [ctx.ModuleBuild(pctx, params)]: the build statement is declared. *)
Definition ModuleBuild (params : ModuleBuildParams) : Build unit :=
  fun st => (Return tt, mkActions (errs st) (buildDefs st ++ [params])).

(** ** The rules *)

Definition Q : piece := Lit dquote.

Definition javac : Rule :=
  mkRule "javac" true
    [Lit "rm -rf "; Q; Var "outDir"; Q; Lit " "; Q; Var "annoDir"; Q;
     Lit " && mkdir -p "; Q; Var "outDir"; Q; Lit " "; Q; Var "annoDir"; Q;
     Lit " && ";
     Var "config.JavacWrapper"; Var "config.JavacCmd"; Lit " ";
     Var "config.JavacHeapFlags"; Lit " "; Var "config.CommonJdkFlags"; Lit " ";
     Var "javacFlags"; Lit " "; Var "sourcepath"; Lit " ";
     Var "bootClasspath"; Lit " "; Var "classpath"; Lit " ";
     Lit "-source "; Var "javaVersion"; Lit " -target "; Var "javaVersion"; Lit " ";
     Lit "-d "; Var "outDir"; Lit " -s "; Var "annoDir"; Lit " @"; Var "out";
     Lit ".rsp && ";
     Var "config.SoongZipCmd"; Lit " -jar -o "; Var "out"; Lit " -C ";
     Var "outDir"; Lit " -D "; Var "outDir"]
    ["${config.JavacCmd}"; "${config.SoongZipCmd}"]
    [Var "out"; Lit ".rsp"]
    [Var "in"]
    ["javacFlags"; "sourcepath"; "bootClasspath"; "classpath"; "outDir";
     "annoDir"; "javaVersion"].

Definition errorprone : Rule :=
  mkRule "errorprone" false
    [Lit "rm -rf "; Q; Var "outDir"; Q; Lit " "; Q; Var "annoDir"; Q;
     Lit " && mkdir -p "; Q; Var "outDir"; Q; Lit " "; Q; Var "annoDir"; Q;
     Lit " && ";
     Var "config.ErrorProneCmd"; Lit " ";
     Var "javacFlags"; Lit " "; Var "sourcepath"; Lit " ";
     Var "bootClasspath"; Lit " "; Var "classpath"; Lit " ";
     Lit "-source "; Var "javaVersion"; Lit " -target "; Var "javaVersion"; Lit " ";
     Lit "-d "; Var "outDir"; Lit " -s "; Var "annoDir"; Lit " @"; Var "out";
     Lit ".rsp && ";
     Var "config.SoongZipCmd"; Lit " -jar -o "; Var "out"; Lit " -C ";
     Var "outDir"; Lit " -D "; Var "outDir"]
    ["${config.JavaCmd}"; "${config.ErrorProneJavacJar}";
     "${config.ErrorProneJar}"; "${config.SoongZipCmd}"]
    [Var "out"; Lit ".rsp"]
    [Var "in"]
    ["javacFlags"; "sourcepath"; "bootClasspath"; "classpath"; "outDir";
     "annoDir"; "javaVersion"].

Definition jar : Rule :=
  mkRule "jar" false
    [Var "config.SoongZipCmd"; Lit " -jar -o "; Var "out"; Lit " "; Var "jarArgs"]
    ["${config.SoongZipCmd}"] [] []
    ["jarArgs"].

Definition combineJar : Rule :=
  mkRule "combineJar" false
    [Var "config.MergeZipsCmd"; Lit " -j "; Var "jarArgs"; Lit " "; Var "out";
     Lit " "; Var "in"]
    ["${config.MergeZipsCmd}"] [] []
    ["jarArgs"].

Definition desugar : Rule :=
  mkRule "desugar" false
    [Lit "rm -rf "; Var "dumpDir"; Lit " && mkdir -p "; Var "dumpDir"; Lit " && ";
     Var "config.JavaCmd"; Lit " ";
     Lit "-Djdk.internal.lambda.dumpProxyClasses="; Dollar; Lit "(cd ";
     Var "dumpDir"; Lit " && pwd) ";
     Var "javaFlags"; Lit " ";
     Lit "-jar "; Var "config.DesugarJar"; Lit " "; Var "classpathFlags";
     Lit " "; Var "desugarFlags"; Lit " ";
     Lit "-i "; Var "in"; Lit " -o "; Var "out"]
    ["${config.DesugarJar}"] [] []
    ["javaFlags"; "classpathFlags"; "desugarFlags"; "dumpDir"].

Definition dx : Rule :=
  mkRule "dx" false
    [Lit "rm -rf "; Q; Var "outDir"; Q; Lit " && mkdir -p "; Q; Var "outDir"; Q;
     Lit " && ";
     Var "config.DxCmd"; Lit " --dex --output="; Var "outDir"; Lit " ";
     Var "dxFlags"; Lit " "; Var "in"; Lit " && ";
     Var "config.SoongZipCmd"; Lit " -o "; Var "outDir";
     Lit "/classes.dex.jar -C "; Var "outDir"; Lit " -D "; Var "outDir";
     Lit " && ";
     Var "config.MergeZipsCmd"; Lit " -D -stripFile "; Q; Lit "*.class"; Q;
     Lit " "; Var "out"; Lit " "; Var "outDir"; Lit "/classes.dex.jar ";
     Var "in"]
    ["${config.DxCmd}"; "${config.SoongZipCmd}"; "${config.MergeZipsCmd}"] [] []
    ["outDir"; "dxFlags"].

Definition jarjar : Rule :=
  mkRule "jarjar" false
    [Var "config.JavaCmd"; Lit " -jar "; Var "config.JarjarCmd"; Lit " process ";
     Var "rulesFile"; Lit " "; Var "in"; Lit " "; Var "out"]
    ["${config.JavaCmd}"; "${config.JarjarCmd}"; "$rulesFile"] [] []
    ["rulesFile"].

(** ** Rendering a declared build statement *)

(** The explicit inputs of a statement: [ModuleBuild] puts [Input] after
    [Inputs]. *)
Definition explicitInputs (b : ModuleBuildParams) : list Path :=
  elems (Inputs b) ++ option_list (Input b).

(** The implicit dependencies of a statement: [Implicit] after
    [Implicits]. *)
Definition implicitDeps (b : ModuleBuildParams) : list Path :=
  elems (Implicits b) ++ option_list (Implicit b).

(** The value of a variable in a statement: an argument of the rule comes
    from [Args] (an argument left out is empty), [$out] and [$in] are
    the output and the space-separated explicit inputs, and the rest
    belongs to package [config]. *)
Definition value (cfg : Config) (b : ModuleBuildParams) (name : string)
    : string :=
  if bool_decide (name ∈ argNames (rule b)) then default EmptyString (Args b !! name)
  else if String.eqb name "out" then String (Output b)
  else if String.eqb name "in"
       then strings.Join (String <$> explicitInputs b) " "
  else configVar cfg name.

Definition expand (cfg : Config) (b : ModuleBuildParams) (p : piece) : string :=
  match p with
  | Lit s => s
  | Var name => value cfg b name
  | Dollar => "$"
  end.

Fixpoint render (cfg : Config) (b : ModuleBuildParams) (ps : list piece)
    : string :=
  match ps with
  | [] => EmptyString
  | p :: rest => expand cfg b p +:+ render cfg b rest
  end.

(** The command line the engine runs for a declared statement. *)
Definition command (cfg : Config) (b : ModuleBuildParams) : string :=
  render cfg b (Command (rule b)).

(** The response file of a declared statement and what is written to it. *)
Definition rspfile (cfg : Config) (b : ModuleBuildParams) : string :=
  render cfg b (Rspfile (rule b)).

Definition rspfileContent (cfg : Config) (b : ModuleBuildParams) : string :=
  render cfg b (RspfileContent (rule b)).

(** ** The builder functions *)

Record javaBuilderFlags : Type := mkFlags {
  javacFlags : string;
  dxFlags : string;
  bootClasspath : classpath;
  classpath_ : classpath;
  systemModules : classpath;
  desugarFlags : string;
  aidlFlags : string;
  javaVersion : string;
  protoFlags : string;
  protoOutFlag : string;
}.

(** [func transformJavaToClasses(ctx, outputFile, srcFiles, srcJars, flags,
    deps, intermediatesSuffix, desc, rule)]. *)
Definition transformJavaToClasses (ctx : ModuleContext) (outputFile : Path)
    (srcFiles : Paths) (srcJars : classpath) (flags : javaBuilderFlags)
    (deps : Paths) (intermediatesSuffix desc : string) (rule : Rule)
    : Build unit :=
  let deps := append deps (elems srcJars) in
  '(deps, bootClasspath) ←
    (if String.eqb (javaVersion flags) "1.9" then
       let deps := append deps (elems (systemModules flags)) in
       s ← pure (JavaSystemModules (Some (systemModules flags)) (Device ctx));
       mret (deps, s)
     else
       let deps := append deps (elems (bootClasspath flags)) in
       s ← pure (JavaBootClasspath (Some (bootClasspath flags)) (Device ctx));
       mret (deps, s)) : Build (Paths * string);
  let deps := append deps (elems (classpath_ flags)) in
  sourcepath ← pure (JavaSourcepath (Some srcJars));
  classpath ← pure (JavaClasspath (Some (classpath_ flags)));
  ModuleBuild {|
    rule := rule;
    Description := desc;
    Output := outputFile;
    Input := None;
    Inputs := srcFiles;
    Implicit := None;
    Implicits := deps;
    Args :=
      <["javacFlags" := javacFlags flags]> $
      <["bootClasspath" := bootClasspath]> $
      <["sourcepath" := sourcepath]> $
      <["classpath" := classpath]> $
      <["outDir" := String (PathForModuleOut ctx ("classes" +:+ intermediatesSuffix))]> $
      <["annoDir" := String (PathForModuleOut ctx ("anno" +:+ intermediatesSuffix))]> $
      <["javaVersion" := javaVersion flags]> ∅;
  |}.

(** [func TransformJavaToClasses(ctx, outputFile, srcFiles, srcJars, flags,
    deps)]. *)
Definition TransformJavaToClasses (ctx : ModuleContext) (outputFile : Path)
    (srcFiles : Paths) (srcJars : classpath) (flags : javaBuilderFlags)
    (deps : Paths) : Build unit :=
  transformJavaToClasses ctx outputFile srcFiles srcJars flags deps
    EmptyString "javac" javac.

(** [func RunErrorProne(ctx, outputFile, srcFiles, srcJars, flags)]. *)
Definition RunErrorProne (cfg : Config) (ctx : ModuleContext)
    (outputFile : Path) (srcFiles : Paths) (srcJars : classpath)
    (flags : javaBuilderFlags) : Build unit :=
  _ ← (if String.eqb (ErrorProneJar cfg) EmptyString then
         ModuleErrorf
           "cannot build with Error Prone, missing external/error_prone?"
       else mret tt);
  transformJavaToClasses ctx outputFile srcFiles srcJars flags None
    "-errorprone" "errorprone" errorprone.

(** [func TransformResourcesToJar(ctx, outputFile, jarArgs, deps)]. *)
Definition TransformResourcesToJar (ctx : ModuleContext) (outputFile : Path)
    (jarArgs : slice string) (deps : Paths) : Build unit :=
  ModuleBuild {|
    rule := jar;
    Description := "jar";
    Output := outputFile;
    Input := None;
    Inputs := None;
    Implicit := None;
    Implicits := deps;
    Args := <["jarArgs" := strings.Join (elems jarArgs) " "]> ∅;
  |}.

(** [android.OptionalPath]: [Valid()] holds of [Some p], whose [Path()] is
    [p]. *)
Definition OptionalPath : Type := option Path.

(** [func TransformJarsToJar(ctx, outputFile, jars, manifest, stripDirs)]. *)
Definition TransformJarsToJar (ctx : ModuleContext) (outputFile : Path)
    (jars : Paths) (manifest : OptionalPath) (stripDirs : bool) : Build unit :=
  let deps : Paths := None in
  let jarArgs : slice string := None in
  let '(jarArgs, deps) :=
    match manifest with
    | Some m => (append jarArgs ["-m " +:+ String m], append deps [m])
    | None => (jarArgs, deps)
    end in
  let jarArgs := if stripDirs then append jarArgs ["-D"] else jarArgs in
  ModuleBuild {|
    rule := combineJar;
    Description := "combine jars";
    Output := outputFile;
    Input := None;
    Inputs := jars;
    Implicit := None;
    Implicits := deps;
    Args := <["jarArgs" := strings.Join (elems jarArgs) " "]> ∅;
  |}.

(** [func TransformDesugar(ctx, outputFile, classesJar, flags)]. *)
Definition TransformDesugar (ctx : ModuleContext) (outputFile : Path)
    (classesJar : Path) (flags : javaBuilderFlags) : Build unit :=
  let dumpDir := PathForModuleOut ctx "desugar_dumped_classes" in
  let javaFlags :=
    if UseOpenJDK9 ctx
    then "--add-opens java.base/java.lang.invoke=ALL-UNNAMED"
    else EmptyString in
  let desugarFlags_ : slice string := None in
  let desugarFlags_ :=
    append desugarFlags_
      (elems (DesugarBootClasspath (Some (bootClasspath flags)))) in
  let desugarFlags_ :=
    append desugarFlags_
      (elems (DesugarClasspath (Some (classpath_ flags)))) in
  let deps : Paths := None in
  let deps := append deps (elems (bootClasspath flags)) in
  let deps := append deps (elems (classpath_ flags)) in
  ModuleBuild {|
    rule := desugar;
    Description := "desugar";
    Output := outputFile;
    Input := Some classesJar;
    Inputs := None;
    Implicit := None;
    Implicits := deps;
    Args :=
      <["dumpDir" := String dumpDir]> $
      <["javaFlags" := javaFlags]> $
      <["classpathFlags" := strings.Join (elems desugarFlags_) " "]> $
      <["desugarFlags" := desugarFlags flags]> ∅;
  |}.

(** [func TransformClassesJarToDexJar(ctx, outputFile, classesJar, flags)]. *)
Definition TransformClassesJarToDexJar (ctx : ModuleContext)
    (outputFile : Path) (classesJar : Path) (flags : javaBuilderFlags)
    : Build unit :=
  let outDir := PathForModuleOut ctx "dex" in
  ModuleBuild {|
    rule := dx;
    Description := "dx";
    Output := outputFile;
    Input := Some classesJar;
    Inputs := None;
    Implicit := None;
    Implicits := None;
    Args := <["dxFlags" := dxFlags flags]> $ <["outDir" := String outDir]> ∅;
  |}.

(** [func TransformJarJar(ctx, outputFile, classesJar, rulesFile)]. *)
Definition TransformJarJar (ctx : ModuleContext) (outputFile : Path)
    (classesJar : Path) (rulesFile : Path) : Build unit :=
  ModuleBuild {|
    rule := jarjar;
    Description := "jarjar";
    Output := outputFile;
    Input := Some classesJar;
    Inputs := None;
    Implicit := Some rulesFile;
    Implicits := None;
    Args := <["rulesFile" := String rulesFile]> ∅;
  |}.

(** * Vocabulary of the statements *)

(** ** Renderings and declared statements *)

(** The shape shared by the four colon-joined renderings. *)
Definition colon_form (flag empty : string) (c : classpath) : string :=
  match elems c with
  | [] => empty
  | _ :: _ => flag +:+ strings.Join (String <$> elems c) ":"
  end.

(** The context after a call that declared [b] and returned. *)
Definition declared (st : actions) (b : ModuleBuildParams)
    : outcome unit * actions :=
  (Return tt, mkActions (errs st) (buildDefs st ++ [b])).

(** The rendering [transformJavaToClasses] asks for, and the entries it
    adds to the dependencies with it. *)
Definition bootArg (ctx : ModuleContext) (flags : javaBuilderFlags)
    : outcome string :=
  if String.eqb (javaVersion flags) "1.9"
  then JavaSystemModules (Some (systemModules flags)) (Device ctx)
  else JavaBootClasspath (Some (bootClasspath flags)) (Device ctx).

Definition bootDeps (flags : javaBuilderFlags) : list Path :=
  if String.eqb (javaVersion flags) "1.9"
  then elems (systemModules flags)
  else elems (bootClasspath flags).

(** What a compile declares when the boot rendering is [s]. *)
Definition compiles_with (ctx : ModuleContext) (outputFile : Path)
    (srcFiles : Paths) (srcJars : classpath) (flags : javaBuilderFlags)
    (deps : Paths) (intermediatesSuffix desc : string) (r : Rule)
    (s : string) (b : ModuleBuildParams) : Prop :=
  rule b = r /\ Description b = desc /\ Output b = outputFile
  /\ Input b = None /\ Inputs b = srcFiles /\ Implicit b = None
  /\ elems (Implicits b)
     = elems deps ++ elems srcJars ++ bootDeps flags
       ++ elems (classpath_ flags)
  /\ Args b
     = (<["javacFlags" := javacFlags flags]> $
        <["bootClasspath" := s]> $
        <["sourcepath" :=
            colon_form "-sourcepath " ("-sourcepath " +:+ empty_word) srcJars]> $
        <["classpath" :=
            colon_form "-classpath " EmptyString (classpath_ flags)]> $
        <["outDir" :=
            String (PathForModuleOut ctx ("classes" +:+ intermediatesSuffix))]> $
        <["annoDir" :=
            String (PathForModuleOut ctx ("anno" +:+ intermediatesSuffix))]> $
        <["javaVersion" := javaVersion flags]> ∅).

(** The same flags with another boot classpath, or with other system
    modules. *)
Definition set_bootClasspath (bc : classpath) (f : javaBuilderFlags)
    : javaBuilderFlags :=
  mkFlags (javacFlags f) (dxFlags f) bc (classpath_ f) (systemModules f)
          (desugarFlags f) (aidlFlags f) (javaVersion f) (protoFlags f)
          (protoOutFlag f).

Definition set_systemModules (sm : classpath) (f : javaBuilderFlags)
    : javaBuilderFlags :=
  mkFlags (javacFlags f) (dxFlags f) (bootClasspath f) (classpath_ f) sm
          (desugarFlags f) (aidlFlags f) (javaVersion f) (protoFlags f)
          (protoOutFlag f).

Definition missing_error_prone : string :=
  "cannot build with Error Prone, missing external/error_prone?".

(** The context after an error has been reported. *)
Definition reported (st : actions) (msg : string) : actions :=
  mkActions (errs st ++ [msg]) (buildDefs st).

(** The part of the [javac] command before [$javacFlags], and the part
    after the two version flags. *)
Definition javac_head : list piece :=
  take 24 (Command javac).

Definition javac_tail : list piece :=
  drop 37 (Command javac).


(** The variables of a command template. *)
Definition variables (ps : list piece) : list string :=
  omap (fun p => match p with Var name => Some name | _ => None end) ps.

(** A statement gives its rule exactly the arguments the rule names, and
    every variable of the rule's command is one of these arguments, [$in],
    [$out] or a variable of package [config]. *)
Definition well_formed (b : ModuleBuildParams) : Prop :=
  dom (Args b) = list_to_set (argNames (rule b))
  /\ Forall (fun name =>
               name ∈ argNames (rule b) \/ name = "in" \/ name = "out"
               \/ String.prefix "config." name = true)
            (variables (Command (rule b))).

(** The context [st'] a call left behind when it started in [st]: the
    errors are those of [st], and the statements are those of [st]
    followed by at most one new, well-formed statement. *)
Definition keeps (st st' : actions) : Prop :=
  errs st' = errs st
  /\ exists l, buildDefs st' = buildDefs st ++ l
               /\ length l <= 1 /\ Forall well_formed l.

(** ** Sample inputs *)

Definition ex_ctx (device : bool) : ModuleContext :=
  mkContext device false (fun name => mkPath ("out/m/" +:+ name)).

Definition ex_cfg (errorProneJar : string) : Config :=
  mkConfig errorProneJar (fun name => "${" +:+ name +:+ "}").

Definition ex_flags (version : string) (boot user sys : classpath)
    : javaBuilderFlags :=
  mkFlags "-Xlint" EmptyString boot user sys EmptyString EmptyString version
          EmptyString EmptyString.

Definition ex_flags19 : javaBuilderFlags :=
  ex_flags "1.9" (Some [mkPath "core.jar"]) None
           (Some [mkPath "jdk9/lib/modules"]).

Definition ex_flags18 : javaBuilderFlags :=
  ex_flags "1.8" (Some [mkPath "core.jar"]) None
           (Some [mkPath "jdk9/lib/modules"]).

Definition ex_out : Path := mkPath "out/m/classes.jar".

Definition ex_srcs : Paths := Some [mkPath "A.java"; mkPath "B.java"].

Definition ex_st : actions := mkActions [] [].

Definition ex_flags_empty18 : javaBuilderFlags := ex_flags "1.8" None None None.

(** * Properties *)

(** ** Strings *)

Section string_facts.

Implicit Types s q suffix : string.

Lemma string_length_app s q :
  String.length (s +:+ q) = String.length s + String.length q.
Proof. induction s as [|c s IH]; simpl; [done | by rewrite IH]. Qed.

Lemma app_String c s q : String.String c s +:+ q = String.String c (s +:+ q).
Proof. reflexivity. Qed.

Lemma string_app_empty_r s : s +:+ EmptyString = s.
Proof. induction s as [|c s IH]; [done | by rewrite app_String, IH]. Qed.

Lemma string_app_assoc s q r : (s +:+ q) +:+ r = s +:+ (q +:+ r).
Proof. induction s as [|c s IH]; [done | by rewrite !app_String, IH]. Qed.

Lemma substring_all s : String.substring 0 (String.length s) s = s.
Proof. induction s as [|c s IH]; simpl; [done | by rewrite IH]. Qed.

(** [(q ++ suffix)[:len(q)] = q]. *)
Lemma upto_app q suffix : strings.upto (String.length q) (q +:+ suffix) = q.
Proof.
  unfold strings.upto.
  induction q as [|c q IH]; simpl.
  - by destruct suffix.
  - by rewrite IH.
Qed.

(** [(q ++ suffix)[len(q):] = suffix]. *)
Lemma substring_app_r q suffix :
  String.substring (String.length q) (String.length suffix) (q +:+ suffix)
  = suffix.
Proof. induction q as [|c q IH]; simpl; [apply substring_all | done]. Qed.

Lemma from_app q suffix :
  strings.from (String.length q) (q +:+ suffix) = suffix.
Proof.
  unfold strings.from. rewrite string_length_app.
  replace (String.length q + String.length suffix - String.length q)
    with (String.length suffix) by lia.
  apply substring_app_r.
Qed.

(** A string is its first [n] bytes followed by the rest. *)
Lemma upto_from n s :
  n <= String.length s -> strings.upto n s +:+ strings.from n s = s.
Proof.
  unfold strings.upto, strings.from.
  revert n; induction s as [|c s IH]; intros [|n] Hn; simpl in *;
    try done; try lia.
  - by rewrite substring_all.
  - rewrite app_String. f_equal. apply IH. lia.
Qed.

Lemma HasSuffix_app q suffix : strings.HasSuffix (q +:+ suffix) suffix = true.
Proof.
  unfold strings.HasSuffix. rewrite string_length_app.
  replace (String.length q + String.length suffix - String.length suffix)
    with (String.length q) by lia.
  rewrite from_app, String.eqb_refl, andb_true_r.
  apply Nat.leb_le. lia.
Qed.

(** [HasSuffix] decides "ends in [suffix]". *)
Lemma HasSuffix_spec s suffix :
  strings.HasSuffix s suffix = true <-> exists q, s = q +:+ suffix.
Proof.
  split.
  - unfold strings.HasSuffix. intros [Hle Heq]%andb_true_iff.
    apply Nat.leb_le in Hle. apply String.eqb_eq in Heq.
    exists (strings.upto (String.length s - String.length suffix) s).
    symmetry. etrans; [|apply (upto_from (String.length s - String.length suffix)); lia].
    by rewrite Heq.
  - intros [q ->]. apply HasSuffix_app.
Qed.

(** A present suffix is cut off. *)
Lemma TrimSuffix_app q suffix : strings.TrimSuffix (q +:+ suffix) suffix = q.
Proof.
  unfold strings.TrimSuffix. rewrite HasSuffix_app, string_length_app.
  replace (String.length q + String.length suffix - String.length suffix)
    with (String.length q) by lia.
  apply upto_app.
Qed.

(** Without the suffix the string is left alone. *)
Lemma TrimSuffix_other s suffix :
  (forall q, s <> q +:+ suffix) -> strings.TrimSuffix s suffix = s.
Proof.
  intros Hno. unfold strings.TrimSuffix.
  destruct (strings.HasSuffix s suffix) eqn:Hs; [|done].
  apply HasSuffix_spec in Hs as [q ->]. by destruct (Hno q).
Qed.

Lemma Join_cons s a sep :
  a <> [] -> strings.Join (s :: a) sep = s +:+ sep +:+ strings.Join a sep.
Proof. by destruct a. Qed.

End string_facts.

(** Joining the images of a first element and the rest: the first image,
    then the separator and the image of each further element. *)
Lemma Join_first_rest {A} (f : A -> string) (sep : string) (a : A)
    (l : list A) :
  strings.Join (f <$> a :: l) sep
  = f a +:+ foldr (fun q acc => sep +:+ f q +:+ acc) EmptyString l.
Proof.
  revert a. induction l as [|b l IH]; intros a.
  - simpl. by rewrite string_app_empty_r.
  - change (f <$> a :: b :: l) with (f a :: (f <$> b :: l)).
    rewrite Join_cons by done. by rewrite IH.
Qed.

(** ** The per-entry loop *)

Section fill_facts.

Variable f : Path -> string.

(** The loop overwrites exactly the cells [i .. i + len(vs) - 1]. *)
Lemma fill_spec vs : forall (pre old post : list string),
  length old = length vs ->
  fill f (length pre) vs (pre ++ old ++ post) = pre ++ (f <$> vs) ++ post.
Proof.
  induction vs as [|v vs IH]; intros pre old post Hlen.
  - by destruct old.
  - destruct old as [|o old]; [done|]. simpl in Hlen. simpl fill.
    rewrite (insert_app_r_alt pre), Nat.sub_diag by lia. simpl.
    specialize (IH (pre ++ [f v]) old post).
    rewrite length_app in IH. simpl in IH.
    replace (length pre + 1) with (S (length pre)) in IH by lia.
    rewrite <- !(assoc_L (++)) in IH. simpl in IH.
    rewrite IH by lia. done.
Qed.

(** Run on a fresh [make([]string, len(vs))] it is [map]. *)
Lemma fill_make vs : fill f 0 vs (make (length vs)) = f <$> vs.
Proof.
  pose proof (fill_spec vs [] (make (length vs)) []) as H.
  simpl in H. rewrite !app_nil_r in H. apply H.
  unfold make. by rewrite length_replicate.
Qed.

End fill_facts.

(** ** Slices *)

Lemma elems_append {A} (s : slice A) (ys : list A) :
  elems (append s ys) = elems s ++ ys.
Proof. destruct ys; simpl; [by rewrite app_nil_r | done]. Qed.

(** A slice without elements is the nil slice or an empty one. *)
Lemma len_0_inv {A} (s : slice A) : len s = 0 -> s = None \/ s = Some [].
Proof. destruct s as [[|a l]|]; simpl; intros; auto; discriminate. Qed.

(** ** The colon-joined renderings *)

(** The text of an empty shell word is two double quotes. *)
Lemma empty_word_bytes :
  empty_word = String.String "034" (String.String "034" EmptyString).
Proof. reflexivity. Qed.

Lemma Strings_Some (c : classpath) :
  Strings (Some c) = Return (Some (String <$> elems c)).
Proof. unfold Strings, len. by rewrite fill_make. Qed.

Lemma joined_Some (c : classpath) :
  joined (Some c) = Return (strings.Join (String <$> elems c) ":").
Proof. unfold joined. by rewrite Strings_Some. Qed.

Ltac colon_joined c :=
  destruct c as [[|? ?]|]; try done;
  cbn -[joined]; rewrite joined_Some; done.

Lemma JavaSourcepath_Some (c : classpath) :
  JavaSourcepath (Some c)
  = Return (colon_form "-sourcepath " ("-sourcepath " +:+ empty_word) c).
Proof. colon_joined c. Qed.

Lemma JavaClasspath_Some (c : classpath) :
  JavaClasspath (Some c) = Return (colon_form "-classpath " EmptyString c).
Proof. colon_joined c. Qed.

Lemma JavaProcessorpath_Some (c : classpath) :
  JavaProcessorpath (Some c)
  = Return (colon_form "-processorpath " EmptyString c).
Proof. colon_joined c. Qed.

Lemma JavaBootClasspath_Some (c : classpath) (forceEmpty : bool) :
  JavaBootClasspath (Some c) forceEmpty
  = Return (colon_form "-bootclasspath "
              (if forceEmpty then "-bootclasspath " +:+ empty_word
               else EmptyString) c).
Proof. destruct forceEmpty; colon_joined c. Qed.

(** C5.  For every classpath sequence, [JavaSourcepath] on a sequence
    without entries (nil or empty) yields the explicit-empty flag, the text
    [-sourcepath] followed by a space and two double quotes, and on a
    sequence with entries yields [-sourcepath ] followed by the entries'
    paths in their original order joined with [:].  In both cases the flag
    is there: the rendering starts with [-sourcepath ].  Written out, the
    joined text is the path of the first entry followed, for each further
    entry in order, by a [:] and the path of that entry. *)
Theorem JavaSourcepath_render (c : classpath) :
  JavaSourcepath (Some c)
  = Return (match elems c with
            | [] => "-sourcepath " +:+ dquote +:+ dquote
            | p :: ps => "-sourcepath " +:+ strings.Join (String <$> p :: ps) ":"
            end)
  /\ (exists rest, JavaSourcepath (Some c) = Return ("-sourcepath " +:+ rest))
  /\ JavaSourcepath (Some c)
     = Return (match elems c with
               | [] => "-sourcepath " +:+ dquote +:+ dquote
               | p :: ps =>
                   "-sourcepath " +:+ String p
                   +:+ foldr (fun q acc => ":" +:+ String q +:+ acc)
                             EmptyString ps
               end).
Proof.
  rewrite JavaSourcepath_Some. unfold colon_form.
  destruct (elems c) as [|p ps]; repeat split; eauto.
  by rewrite Join_first_rest.
Qed.

Lemma JavaSourcepath_render_witness :
  JavaSourcepath
    (Some (Some [mkPath "x.srcjar"; mkPath "y.srcjar"; mkPath "z.srcjar"]))
  = Return "-sourcepath x.srcjar:y.srcjar:z.srcjar"
  /\ JavaSourcepath (Some (Some [mkPath "y.srcjar"; mkPath "x.srcjar"]))
     = Return "-sourcepath y.srcjar:x.srcjar"
  /\ JavaSourcepath (Some (Some [mkPath "gen.srcjar"]))
     = Return "-sourcepath gen.srcjar".
Proof.
  split; [|split].
  - exact (proj1 (JavaSourcepath_render
                    (Some [mkPath "x.srcjar"; mkPath "y.srcjar";
                           mkPath "z.srcjar"]))).
  - exact (proj1 (JavaSourcepath_render
                    (Some [mkPath "y.srcjar"; mkPath "x.srcjar"]))).
  - exact (proj1 (JavaSourcepath_render (Some [mkPath "gen.srcjar"]))).
Defined.

(** C6.  For every classpath sequence, [JavaClasspath] on a sequence
    without entries yields the empty string (the flag is left out), and on
    a sequence with entries yields [-classpath ] followed by the entries'
    paths in their original order joined with [:].  Written out, the
    joined text is the path of the first entry followed, for each further
    entry in order, by a [:] and the path of that entry. *)
Theorem JavaClasspath_render (c : classpath) :
  JavaClasspath (Some c)
  = Return (match elems c with
            | [] => EmptyString
            | p :: ps => "-classpath " +:+ strings.Join (String <$> p :: ps) ":"
            end)
  /\ JavaClasspath (Some c)
     = Return (match elems c with
               | [] => EmptyString
               | p :: ps =>
                   "-classpath " +:+ String p
                   +:+ foldr (fun q acc => ":" +:+ String q +:+ acc)
                             EmptyString ps
               end).
Proof.
  rewrite JavaClasspath_Some. unfold colon_form.
  destruct (elems c) as [|p ps]; split; try done.
  by rewrite Join_first_rest.
Qed.

Lemma JavaClasspath_render_witness :
  JavaClasspath
    (Some (Some [mkPath "b.jar"; mkPath "a.jar"; mkPath "c.jar"]))
  = Return "-classpath b.jar:a.jar:c.jar"
  /\ JavaClasspath (Some (Some [mkPath "a.jar"; mkPath "b.jar"]))
     = Return "-classpath a.jar:b.jar"
  /\ JavaClasspath (Some (Some [mkPath "a.jar"])) = Return "-classpath a.jar".
Proof.
  split; [|split].
  - exact (proj1 (JavaClasspath_render
                    (Some [mkPath "b.jar"; mkPath "a.jar"; mkPath "c.jar"]))).
  - exact (proj1 (JavaClasspath_render
                    (Some [mkPath "a.jar"; mkPath "b.jar"]))).
  - exact (proj1 (JavaClasspath_render (Some [mkPath "a.jar"]))).
Defined.

(** ** System modules *)

Lemma JavaSystemModules_one (p : Path) (forceEmpty : bool) :
  JavaSystemModules (Some (Some [p])) forceEmpty
  = Return ("--system=" +:+ strings.TrimSuffix (String p) "lib/modules").
Proof. reflexivity. Qed.

(** C1.  [JavaSystemModules] by the number of entries: none and
    [forceEmpty] false gives the empty string; none and [forceEmpty] true
    gives [--system=none]; exactly one gives [--system=] followed by the
    entry's path without its trailing [lib/modules]; two or more panic with
    the message [more than one system module], and a panic carries no
    rendered text. *)
Theorem JavaSystemModules_cases (x : classpath) (forceEmpty : bool) :
  JavaSystemModules (Some x) forceEmpty
  = match elems x with
    | [] => Return (if forceEmpty then "--system=none" else EmptyString)
    | [p] => Return ("--system="
                     +:+ strings.TrimSuffix (String p) "lib/modules")
    | _ :: _ :: _ => Panic "more than one system module"
    end
  /\ forall root : string,
       JavaSystemModules (Some (Some [mkPath (root +:+ "lib/modules")]))
         forceEmpty
       = Return ("--system=" +:+ root).
Proof.
  split.
  - destruct x as [[|p [|p' ps]]|]; by destruct forceEmpty.
  - intros root. rewrite JavaSystemModules_one. cbn [String].
    by rewrite TrimSuffix_app.
Qed.

(** C10.  A single entry whose path does not end in [lib/modules] is
    rendered as [--system=] followed by the whole path, and the call
    returns. *)
Theorem JavaSystemModules_other_shape (p : Path) (forceEmpty : bool) :
  (forall root : string, String p <> root +:+ "lib/modules") ->
  JavaSystemModules (Some (Some [p])) forceEmpty
  = Return ("--system=" +:+ String p).
Proof.
  intros Hno. by rewrite JavaSystemModules_one, TrimSuffix_other.
Qed.

Lemma JavaSystemModules_other_shape_witness :
  (forall root : string,
     String (mkPath "prebuilts/jdk9/modules") <> root +:+ "lib/modules")
  /\ JavaSystemModules (Some (Some [mkPath "prebuilts/jdk9/modules"])) true
     = Return "--system=prebuilts/jdk9/modules".
Proof.
  assert (Hno : forall root : string,
             String (mkPath "prebuilts/jdk9/modules") <> root +:+ "lib/modules").
  { intros root Heq.
    assert (Hs : strings.HasSuffix "prebuilts/jdk9/modules" "lib/modules" = true)
      by (apply HasSuffix_spec; eauto).
    vm_compute in Hs. discriminate. }
  split; [exact Hno|].
  exact (JavaSystemModules_other_shape (mkPath "prebuilts/jdk9/modules") true Hno).
Defined.

(** ** The per-entry renderings *)

Lemma DesugarBootClasspath_elems (c : classpath) :
  elems (DesugarBootClasspath (Some c))
  = (fun v => "--bootclasspath_entry " +:+ String v) <$> elems c.
Proof. destruct c as [vs|]; simpl; [apply fill_make | done]. Qed.

Lemma DesugarClasspath_elems (c : classpath) :
  elems (DesugarClasspath (Some c))
  = (fun v => "--classpath_entry " +:+ String v) <$> elems c.
Proof. destruct c as [vs|]; simpl; [apply fill_make | done]. Qed.

(** C9.  On a classpath sequence without entries, be it the nil slice or
    an empty one, every rendering function returns, and returns the form
    its tool expects: the explicit-empty [-sourcepath]; no [-classpath] and
    no [-processorpath]; the explicit-empty [-bootclasspath] or the
    [--system=none] sentinel when [forceEmpty] asks for one and nothing
    otherwise; no per-entry flag; no strings.  [Strings] and the two
    per-entry renderings return as well when the receiver itself is nil. *)
Theorem renderings_total_without_entries (c : classpath) (forceEmpty : bool) :
  len c = 0 ->
  JavaSourcepath (Some c) = Return ("-sourcepath " +:+ dquote +:+ dquote)
  /\ JavaClasspath (Some c) = Return EmptyString
  /\ JavaProcessorpath (Some c) = Return EmptyString
  /\ JavaBootClasspath (Some c) forceEmpty
     = Return (if forceEmpty then "-bootclasspath " +:+ dquote +:+ dquote
               else EmptyString)
  /\ JavaSystemModules (Some c) forceEmpty
     = Return (if forceEmpty then "--system=none" else EmptyString)
  /\ elems (DesugarBootClasspath (Some c)) = []
  /\ elems (DesugarClasspath (Some c)) = []
  /\ (exists ss, Strings (Some c) = Return ss /\ elems ss = [])
  /\ Strings None = Return None
  /\ DesugarBootClasspath None = None
  /\ DesugarClasspath None = None.
Proof.
  intros [-> | ->]%len_0_inv; destruct forceEmpty;
    repeat split; try reflexivity; by eexists.
Qed.

Lemma renderings_total_without_entries_witness :
  len (None : classpath) = 0
  /\ JavaSourcepath (Some None) = Return ("-sourcepath " +:+ dquote +:+ dquote)
  /\ JavaBootClasspath (Some None) true
     = Return ("-bootclasspath " +:+ dquote +:+ dquote)
  /\ JavaSystemModules (Some None) true = Return "--system=none".
Proof.
  split; [reflexivity|].
  pose proof (renderings_total_without_entries None true eq_refl) as H.
  repeat split; apply H.
Defined.


(** ** Declaring build statements *)

(** A compile either panics in the boot rendering, before anything is
    declared, or declares exactly one statement. *)
Lemma transformJavaToClasses_run
    (ctx : ModuleContext) (outputFile : Path) (srcFiles : Paths)
    (srcJars : classpath) (flags : javaBuilderFlags) (deps : Paths)
    (intermediatesSuffix desc : string) (r : Rule) (st : actions) :
  let run :=
    transformJavaToClasses ctx outputFile srcFiles srcJars flags deps
      intermediatesSuffix desc r st in
  match bootArg ctx flags with
  | Panic msg => run = (Panic msg, st)
  | Return s =>
      exists b,
        run = declared st b
        /\ compiles_with ctx outputFile srcFiles srcJars flags deps
             intermediatesSuffix desc r s b
  end.
Proof.
  intros run. subst run.
  unfold transformJavaToClasses, bootArg, compiles_with, bootDeps.
  destruct (String.eqb (javaVersion flags) "1.9").
  - destruct (JavaSystemModules _ _) as [s|msg] eqn:Hs;
      cbn -[JavaSourcepath JavaClasspath]; [|done].
    rewrite JavaSourcepath_Some, JavaClasspath_Some.
    eexists; split; [reflexivity|].
    cbn [rule Description Output Input Inputs Implicit Implicits Args].
    rewrite !elems_append, <- !(assoc_L (++)). done.
  - rewrite JavaBootClasspath_Some.
    cbn -[JavaSourcepath JavaClasspath].
    rewrite JavaSourcepath_Some, JavaClasspath_Some.
    eexists; split; [reflexivity|].
    cbn [rule Description Output Input Inputs Implicit Implicits Args].
    rewrite !elems_append, <- !(assoc_L (++)). done.
Qed.

(** C2.  With version tag [1.9] the [bootClasspath] argument of a compile
    is the system-module rendering, the system-module entries are among
    the implicit dependencies (after the caller's and the source jars,
    before the user classpath), and the boot classpath of the flags has no
    influence on what the call does; the call declares nothing when the
    rendering panics.  With any other tag the argument is the
    boot-classpath rendering, the boot-classpath entries are among the
    implicit dependencies, and the system modules of the flags have no
    influence. *)
Theorem transformJavaToClasses_version_selects
    (ctx : ModuleContext) (outputFile : Path) (srcFiles : Paths)
    (srcJars : classpath) (flags : javaBuilderFlags) (deps : Paths)
    (intermediatesSuffix desc : string) (r : Rule) (st : actions) :
  let run f :=
    transformJavaToClasses ctx outputFile srcFiles srcJars f deps
      intermediatesSuffix desc r st in
  (javaVersion flags = "1.9" ->
     (forall bc, run (set_bootClasspath bc flags) = run flags)
     /\ match JavaSystemModules (Some (systemModules flags)) (Device ctx) with
        | Panic msg => run flags = (Panic msg, st)
        | Return s =>
            exists b, run flags = declared st b
              /\ Args b !! "bootClasspath" = Some s
              /\ elems (Implicits b)
                 = elems deps ++ elems srcJars
                   ++ elems (systemModules flags) ++ elems (classpath_ flags)
        end)
  /\ (javaVersion flags <> "1.9" ->
     (forall sm, run (set_systemModules sm flags) = run flags)
     /\ exists s b,
          JavaBootClasspath (Some (bootClasspath flags)) (Device ctx) = Return s
          /\ run flags = declared st b
          /\ Args b !! "bootClasspath" = Some s
          /\ elems (Implicits b)
             = elems deps ++ elems srcJars
               ++ elems (bootClasspath flags) ++ elems (classpath_ flags)).
Proof.
  intros run.
  pose proof (transformJavaToClasses_run ctx outputFile srcFiles srcJars flags
                deps intermediatesSuffix desc r st) as Hrun.
  unfold bootArg, compiles_with, bootDeps in Hrun. fold (run flags) in Hrun.
  split.
  - intros Hv. apply String.eqb_eq in Hv. split.
    + intros bc. subst run. unfold transformJavaToClasses.
      cbn [set_bootClasspath javaVersion systemModules classpath_ javacFlags].
      by rewrite Hv.
    + rewrite Hv in Hrun.
      destruct (JavaSystemModules _ _) as [s|msg]; [|done].
      destruct Hrun as (b & Hb & _ & _ & _ & _ & _ & _ & Himp & Hargs).
      exists b. repeat split; [done| |done].
      rewrite Hargs. by simplify_map_eq.
  - intros Hv. apply String.eqb_neq in Hv. split.
    + intros sm. subst run. unfold transformJavaToClasses.
      cbn [set_systemModules javaVersion bootClasspath classpath_ javacFlags].
      by rewrite Hv.
    + rewrite Hv in Hrun. rewrite JavaBootClasspath_Some in *.
      destruct Hrun as (b & Hb & _ & _ & _ & _ & _ & _ & Himp & Hargs).
      eexists _, b. repeat split; [done| |done].
      rewrite Hargs. by simplify_map_eq.
Qed.

Lemma transformJavaToClasses_version_selects_witness :
  javaVersion ex_flags19 = "1.9"
  /\ javaVersion ex_flags18 <> "1.9"
  /\ (exists b,
        transformJavaToClasses (ex_ctx true) ex_out ex_srcs None ex_flags19
          None EmptyString "javac" javac ex_st = declared ex_st b
        /\ Args b !! "bootClasspath" = Some "--system=jdk9/"
        /\ elems (Implicits b) = [mkPath "jdk9/lib/modules"])
  /\ (exists b,
        transformJavaToClasses (ex_ctx true) ex_out ex_srcs None ex_flags18
          None EmptyString "javac" javac ex_st = declared ex_st b
        /\ Args b !! "bootClasspath" = Some "-bootclasspath core.jar"
        /\ elems (Implicits b) = [mkPath "core.jar"]).
Proof.
  assert (H18 : javaVersion ex_flags18 <> "1.9") by discriminate.
  split; [reflexivity|]. split; [exact H18|]. split.
  - destruct (transformJavaToClasses_version_selects (ex_ctx true) ex_out
                ex_srcs None ex_flags19 None EmptyString "javac" javac ex_st)
      as [H _].
    destruct (H eq_refl) as [_ Hb]. exact Hb.
  - destruct (transformJavaToClasses_version_selects (ex_ctx true) ex_out
                ex_srcs None ex_flags18 None EmptyString "javac" javac ex_st)
      as [_ H].
    destruct (H H18) as [_ (s & b & Hs & Hb)].
    injection Hs as <-. exists b. exact Hb.
Defined.

(** ** Error Prone *)

(** C3, as the code has it.  When the Error Prone jar is not configured,
    [RunErrorProne] first reports an error that names the missing
    component, [external/error_prone], and then goes on like a call with
    the jar configured: the compile runs on the context that holds the
    error, and unless the boot rendering panics it returns and declares the
    [errorprone] statement.  Nothing is declared before the error is
    reported. *)
Theorem RunErrorProne_unconfigured
    (cfg : Config) (ctx : ModuleContext) (outputFile : Path)
    (srcFiles : Paths) (srcJars : classpath) (flags : javaBuilderFlags)
    (st : actions) :
  ErrorProneJar cfg = EmptyString ->
  let run := RunErrorProne cfg ctx outputFile srcFiles srcJars flags st in
  missing_error_prone
  = "cannot build with Error Prone, missing " +:+ "external/error_prone" +:+ "?"
  /\ run = transformJavaToClasses ctx outputFile srcFiles srcJars flags None
             "-errorprone" "errorprone" errorprone
             (reported st missing_error_prone)
  /\ match bootArg ctx flags with
     | Panic msg => run = (Panic msg, reported st missing_error_prone)
     | Return s =>
         exists b,
           run = (Return tt,
                  mkActions (errs st ++ [missing_error_prone])
                            (buildDefs st ++ [b]))
           /\ rule b = errorprone /\ Output b = outputFile
           /\ Inputs b = srcFiles
     end.
Proof.
  intros Hjar run. split; [reflexivity|].
  assert (Hrun : run = transformJavaToClasses ctx outputFile srcFiles srcJars
                         flags None "-errorprone" "errorprone" errorprone
                         (reported st missing_error_prone)).
  { subst run. unfold RunErrorProne. by rewrite Hjar. }
  split; [exact Hrun|]. rewrite Hrun.
  pose proof (transformJavaToClasses_run ctx outputFile srcFiles srcJars flags
                None "-errorprone" "errorprone" errorprone
                (reported st missing_error_prone)) as H.
  destruct (bootArg ctx flags) as [s|msg]; [|exact H].
  destruct H as (b & -> & Hr & _ & Ho & _ & Hi & _).
  exists b. by repeat split.
Qed.

Lemma RunErrorProne_unconfigured_witness :
  ErrorProneJar (ex_cfg EmptyString) = EmptyString
  /\ exists b,
       RunErrorProne (ex_cfg EmptyString) (ex_ctx true) ex_out ex_srcs None
         ex_flags18 ex_st
       = (Return tt, mkActions [missing_error_prone] [b])
       /\ rule b = errorprone.
Proof.
  split; [reflexivity|].
  destruct (RunErrorProne_unconfigured (ex_cfg EmptyString) (ex_ctx true)
              ex_out ex_srcs None ex_flags18 ex_st eq_refl)
    as (_ & _ & b & Hb & Hr & _).
  exists b. split; [exact Hb | exact Hr].
Defined.

(** C3 as the specification states it fails: without the jar the call
    returns and the context holds a declared [errorprone] statement. *)
Lemma missing_error_prone_still_declares :
  ErrorProneJar (ex_cfg EmptyString) = EmptyString
  /\ let run :=
       RunErrorProne (ex_cfg EmptyString) (ex_ctx true) ex_out ex_srcs None
         ex_flags18 ex_st in
     run.1 = Return tt
     /\ errs run.2 = [missing_error_prone]
     /\ rule <$> buildDefs run.2 = [errorprone]
     /\ buildDefs run.2 <> buildDefs ex_st.
Proof. repeat split; try reflexivity. discriminate. Qed.

(** ** Rendered commands *)

Lemma render_app cfg b (ps qs : list piece) :
  render cfg b (ps ++ qs) = render cfg b ps +:+ render cfg b qs.
Proof.
  induction ps as [|p ps IH]; [done|].
  simpl. by rewrite IH, string_app_assoc.
Qed.

(** An argument of the rule is read from [Args]. *)
Lemma value_arg cfg b (name v : string) :
  name ∈ argNames (rule b) -> Args b !! name = Some v -> value cfg b name = v.
Proof.
  intros Hin Hv. unfold value. by rewrite bool_decide_eq_true_2, Hv.
Qed.

Lemma len_0_elems {A} (s : slice A) : len s = 0 -> elems s = [].
Proof. apply length_zero_iff_nil. Qed.

(** C4, as the code has it.  A compile of two source files with no source
    jars, no user classpath, no boot classpath and version tag [1.8]
    declares one [javac] statement whose arguments hold the explicit-empty
    sourcepath flag, an empty classpath argument, and the version [1.8];
    the [bootClasspath] argument is the explicit-empty bootclasspath flag
    for a device module and empty for a host module.  The command line
    carries them in this order, followed by [-source 1.8 -target 1.8]. *)
Theorem compile_two_sources_1_8
    (cfg : Config) (ctx : ModuleContext) (outputFile s1 s2 : Path)
    (srcJars : classpath) (flags : javaBuilderFlags) (deps : Paths)
    (st : actions) :
  len srcJars = 0 ->
  len (classpath_ flags) = 0 ->
  len (bootClasspath flags) = 0 ->
  javaVersion flags = "1.8" ->
  let boot :=
    if Device ctx then "-bootclasspath " +:+ dquote +:+ dquote
    else EmptyString in
  exists b,
    TransformJavaToClasses ctx outputFile (Some [s1; s2]) srcJars flags deps st
    = declared st b
    /\ rule b = javac
    /\ Inputs b = Some [s1; s2]
    /\ Args b !! "sourcepath" = Some ("-sourcepath " +:+ dquote +:+ dquote)
    /\ Args b !! "classpath" = Some EmptyString
    /\ Args b !! "bootClasspath" = Some boot
    /\ Args b !! "javaVersion" = Some "1.8"
    /\ command cfg b
       = render cfg b javac_head
         +:+ javacFlags flags +:+ " "
         +:+ ("-sourcepath " +:+ dquote +:+ dquote) +:+ " "
         +:+ boot +:+ " "
         +:+ EmptyString +:+ " "
         +:+ "-source 1.8 -target 1.8 "
         +:+ render cfg b javac_tail.
Proof.
  intros Hsrc Hcp Hboot Hv boot.
  pose proof (transformJavaToClasses_run ctx outputFile (Some [s1; s2]) srcJars
                flags deps EmptyString "javac" javac st) as Hrun.
  unfold bootArg, compiles_with, colon_form in Hrun.
  rewrite JavaBootClasspath_Some in Hrun. unfold colon_form in Hrun.
  rewrite Hv, (len_0_elems _ Hsrc), (len_0_elems _ Hcp),
    (len_0_elems _ Hboot) in Hrun.
  cbn [String.eqb Ascii.eqb Bool.eqb] in Hrun.
  destruct Hrun as (b & Hb & Hr & _ & _ & _ & Hi & _ & _ & Hargs).
  assert (Hl : forall name v,
             name ∈ argNames javac ->
             (<["javacFlags" := javacFlags flags]> $
              <["bootClasspath" := boot]> $
              <["sourcepath" := "-sourcepath " +:+ empty_word]> $
              <["classpath" := EmptyString]> $
              <["outDir" := String (PathForModuleOut ctx ("classes" +:+ EmptyString))]> $
              <["annoDir" := String (PathForModuleOut ctx ("anno" +:+ EmptyString))]> $
              <["javaVersion" := "1.8"]> (∅ : gmap string string))
             !! name = Some v ->
             value cfg b name = v).
  { intros name v Hin Hlook. apply value_arg; [by rewrite Hr|].
    by rewrite Hargs. }
  exists b. split; [exact Hb|]. split; [exact Hr|]. split; [exact Hi|].
  rewrite Hargs.
  repeat (split; [by simplify_map_eq|]).
  unfold command. rewrite Hr.
  change (Command javac)
    with (javac_head
          ++ [Var "javacFlags"; Lit " "; Var "sourcepath"; Lit " ";
              Var "bootClasspath"; Lit " "; Var "classpath"; Lit " ";
              Lit "-source "; Var "javaVersion"; Lit " -target ";
              Var "javaVersion"; Lit " "]
          ++ javac_tail).
  rewrite render_app. f_equal.
  cbn [render expand app].
  rewrite (Hl "javacFlags" (javacFlags flags)),
    (Hl "sourcepath" ("-sourcepath " +:+ empty_word)),
    (Hl "bootClasspath" boot), (Hl "classpath" EmptyString),
    (Hl "javaVersion" "1.8");
    try (by simplify_map_eq); try (by repeat constructor).
Qed.

Lemma compile_two_sources_1_8_witness :
  len (None : classpath) = 0
  /\ len (classpath_ ex_flags_empty18) = 0
  /\ len (bootClasspath ex_flags_empty18) = 0
  /\ javaVersion ex_flags_empty18 = "1.8"
  /\ exists b,
       TransformJavaToClasses (ex_ctx true) ex_out
         (Some [mkPath "A.java"; mkPath "B.java"]) None ex_flags_empty18 None
         ex_st
       = declared ex_st b
       /\ Args b !! "sourcepath" = Some ("-sourcepath " +:+ dquote +:+ dquote)
       /\ Args b !! "bootClasspath"
          = Some ("-bootclasspath " +:+ dquote +:+ dquote).
Proof.
  repeat (split; [reflexivity|]).
  destruct (compile_two_sources_1_8 (ex_cfg EmptyString) (ex_ctx true) ex_out
              (mkPath "A.java") (mkPath "B.java") None ex_flags_empty18 None
              ex_st eq_refl eq_refl eq_refl eq_refl)
    as (b & Hb & _ & _ & Hs & _ & Hbc & _).
  exists b. split; [exact Hb|]. split; [exact Hs | exact Hbc].
Defined.

(** C4 as the specification states it fails twice.  For a host module the
    same compile has an empty [bootClasspath] argument and no
    [-bootclasspath] anywhere in its command; and with a source jar the
    sourcepath flag names the jar instead of being the explicit-empty
    one. *)
Lemma host_compile_omits_bootclasspath :
  (let run :=
     TransformJavaToClasses (ex_ctx false) ex_out ex_srcs None
       ex_flags_empty18 None ex_st in
   run.1 = Return tt
   /\ (fun b => Args b !! "bootClasspath") <$> buildDefs run.2
      = [Some EmptyString]
   /\ (fun b => String.index 0 "-bootclasspath" (command (ex_cfg EmptyString) b))
        <$> buildDefs run.2
      = [None])
  /\ (let run :=
        TransformJavaToClasses (ex_ctx true) ex_out ex_srcs
          (Some [mkPath "gen.srcjar"]) ex_flags_empty18 None ex_st in
      run.1 = Return tt
      /\ (fun b => Args b !! "sourcepath") <$> buildDefs run.2
         = [Some "-sourcepath gen.srcjar"]).
Proof. repeat split; vm_compute; reflexivity. Qed.

(** ** Merging archives *)


(** Swapping two archives swaps them in the command. *)
Example TransformJarsToJar_swap :
  let cmd jars :=
    command (ex_cfg EmptyString)
      <$> buildDefs
            (TransformJarsToJar (ex_ctx true) ex_out jars None false ex_st).2 in
  cmd (Some [mkPath "A.jar"; mkPath "B.jar"])
  = ["${config.MergeZipsCmd} -j  out/m/classes.jar A.jar B.jar"]
  /\ cmd (Some [mkPath "B.jar"; mkPath "A.jar"])
     = ["${config.MergeZipsCmd} -j  out/m/classes.jar B.jar A.jar"].
Proof. split; reflexivity. Qed.

(** ** Desugar *)


(** Two boot entries and one user entry give three flags. *)
Example TransformDesugar_three_entries :
  (fun b => Args b !! "classpathFlags")
    <$> buildDefs
          (TransformDesugar (ex_ctx true) ex_out (mkPath "classes.jar")
             (ex_flags "1.8" (Some [mkPath "core.jar"; mkPath "ext.jar"])
                (Some [mkPath "lib.jar"]) None)
             ex_st).2
  = [Some ("--bootclasspath_entry core.jar --bootclasspath_entry ext.jar "
           +:+ "--classpath_entry lib.jar")].
Proof. reflexivity. Qed.

(** * Further properties of the file *)

(** ** The remaining classpath methods *)

Lemma Join_app (a b : list string) (sep : string) :
  a <> [] -> b <> [] ->
  strings.Join (a ++ b) sep
  = strings.Join a sep +:+ sep +:+ strings.Join b sep.
Proof.
  intros Ha Hb. induction a as [|s a IH]; [done|].
  destruct a as [|s' a].
  - simpl app. by rewrite Join_cons.
  - change ((s :: s' :: a) ++ b) with (s :: ((s' :: a) ++ b)).
    rewrite !Join_cons by done. rewrite IH by done.
    by rewrite !string_app_assoc.
Qed.

(** X1.  [Strings] on a non-nil receiver returns a non-nil slice with one
    string for each entry: as many strings as entries, the string at each
    index being the path of the entry at that index; on the nil receiver
    it returns the nil slice. *)
Theorem Strings_in_order (c : classpath) (i : nat) :
  (exists ss : list string,
     Strings (Some c) = Return (Some ss)
     /\ length ss = len c
     /\ ss !! i = String <$> (elems c !! i))
  /\ Strings None = Return None.
Proof.
  split; [|done]. exists (String <$> elems c).
  rewrite Strings_Some. unfold len.
  by rewrite length_fmap, list_lookup_fmap.
Qed.

(** X2.  [JavaBootClasspath] with entries is [-bootclasspath ] followed by
    the paths joined with [:], whatever [forceEmpty] says; without entries
    it is the explicit-empty flag when [forceEmpty] holds and the empty
    string otherwise. *)
Theorem JavaBootClasspath_render (c : classpath) (forceEmpty : bool) :
  JavaBootClasspath (Some c) forceEmpty
  = Return (match elems c with
            | [] => if forceEmpty then "-bootclasspath " +:+ dquote +:+ dquote
                    else EmptyString
            | p :: ps =>
                "-bootclasspath " +:+ strings.Join (String <$> p :: ps) ":"
            end).
Proof.
  rewrite JavaBootClasspath_Some. unfold colon_form.
  by destruct (elems c), forceEmpty.
Qed.

(** X3.  [JavaProcessorpath] without entries is the empty string and with
    entries is [-processorpath ] followed by the paths in their order
    joined with [:]. *)
Theorem JavaProcessorpath_render (c : classpath) :
  JavaProcessorpath (Some c)
  = Return (match elems c with
            | [] => EmptyString
            | p :: ps =>
                "-processorpath " +:+ strings.Join (String <$> p :: ps) ":"
            end).
Proof.
  rewrite JavaProcessorpath_Some. unfold colon_form.
  by destruct (elems c).
Qed.

Lemma AddPaths_panicked (msg : string) (ps : list Path) :
  foldl (fun acc path =>
           x' ← acc; c ← deref x'; Return (Some (append c [path])))
        (Panic msg) ps
  = Panic msg.
Proof. induction ps as [|p ps IH]; [done | exact IH]. Qed.

Lemma AddPaths_Some (c : classpath) (paths : Paths) :
  AddPaths (Some c) paths = Return (Some (append c (elems paths))).
Proof.
  unfold AddPaths. generalize (elems paths) as ps. intros ps.
  revert c. induction ps as [|p ps IH]; intros c; [done|].
  simpl foldl. change (Return (Some c) ≫= _) with
    (Return (Some (append c [p])) : outcome (ptr classpath)).
  rewrite IH. do 2 f_equal. simpl.
  destruct ps; simpl; by rewrite <- ?(assoc_L (++)).
Qed.

(** X4.  On a non-nil receiver [AddPaths] leaves behind the old entries
    followed by the new ones in their order, and with nothing to add it
    leaves the slice as it was, a nil slice still nil.  On the nil
    receiver it returns when there is nothing to add and panics on the
    first path otherwise. *)
Theorem AddPaths_appends (c : classpath) (paths : Paths) :
  (exists c' : classpath,
     AddPaths (Some c) paths = Return (Some c')
     /\ elems c' = elems c ++ elems paths
     /\ (elems paths = [] -> c' = c))
  /\ AddPaths None paths
     = match elems paths with
       | [] => Return None
       | _ :: _ => Panic nil_dereference
       end.
Proof.
  split.
  - exists (append c (elems paths)). rewrite AddPaths_Some.
    split; [done|]. split; [apply elems_append|]. by intros ->.
  - unfold AddPaths. destruct (elems paths) as [|p ps]; [done|].
    simpl foldl. apply AddPaths_panicked.
Qed.

Lemma AddPaths_appends_witness :
  elems (None : Paths) = []
  /\ AddPaths (Some (Some [])) None = Return (Some (Some []))
  /\ AddPaths (Some None) None = Return (Some None).
Proof.
  split; [reflexivity|].
  split.
  - destruct (AddPaths_appends (Some []) None) as [(c' & Hc & _ & Hsame) _].
    rewrite (Hsame eq_refl) in Hc. exact Hc.
  - destruct (AddPaths_appends None None) as [(c' & Hc & _ & Hsame) _].
    rewrite (Hsame eq_refl) in Hc. exact Hc.
Defined.

(** X5.  [Paths] gives the entries behind the receiver in their order, as
    the nil slice when there are none; called after [AddPaths] it gives
    the old entries followed by the added ones. *)
Theorem Paths_after_AddPaths (c : classpath) (paths : Paths) :
  Paths_ (Some c)
  = Return (match elems c with [] => None | _ :: _ => Some (elems c) end)
  /\ exists ps : Paths,
       (x' ← AddPaths (Some c) paths; Paths_ x') = Return ps
       /\ elems ps = elems c ++ elems paths.
Proof.
  split.
  - unfold Paths_. simpl. by destruct (elems c).
  - rewrite AddPaths_Some. eexists. split; [reflexivity|].
    by rewrite !elems_append.
Qed.

(** X6.  Adding paths to a classpath that has entries extends its
    [-classpath] rendering: the old rendering, a [:], and the added paths
    joined with [:]. *)
Theorem JavaClasspath_after_AddPaths (c : classpath) (paths : Paths)
    (old : string) :
  elems c <> [] -> elems paths <> [] ->
  JavaClasspath (Some c) = Return old ->
  (x' ← AddPaths (Some c) paths; JavaClasspath x')
  = Return (old +:+ ":" +:+ strings.Join (String <$> elems paths) ":").
Proof.
  intros Hc Hp Hold. rewrite AddPaths_Some.
  change (JavaClasspath (Some (append c (elems paths))) = Return
            (old +:+ ":" +:+ strings.Join (String <$> elems paths) ":")).
  rewrite JavaClasspath_Some in Hold |- *. injection Hold as <-.
  unfold colon_form. rewrite elems_append.
  destruct (elems c) as [|p ps] eqn:Ec; [done|].
  change ((p :: ps) ++ elems paths) with (p :: (ps ++ elems paths)).
  cbv iota.
  change (p :: (ps ++ elems paths)) with ((p :: ps) ++ elems paths).
  rewrite fmap_app, Join_app, !string_app_assoc; [done|done|].
  destruct (elems paths); done.
Qed.

Lemma JavaClasspath_after_AddPaths_witness :
  (x' ← AddPaths (Some (Some [mkPath "a.jar"]))
          (Some [mkPath "b.jar"; mkPath "c.jar"]);
   JavaClasspath x')
  = Return "-classpath a.jar:b.jar:c.jar".
Proof.
  apply (JavaClasspath_after_AddPaths (Some [mkPath "a.jar"])
           (Some [mkPath "b.jar"; mkPath "c.jar"]) "-classpath a.jar");
    [discriminate | discriminate | reflexivity].
Defined.

(** X7.  The five renderings that take the length of the slice behind the
    receiver, and [Paths], panic on a nil receiver with the runtime's nil
    dereference; the three functions that test the receiver first do
    not. *)
Theorem nil_receiver (forceEmpty : bool) :
  JavaSourcepath None = Panic nil_dereference
  /\ JavaClasspath None = Panic nil_dereference
  /\ JavaProcessorpath None = Panic nil_dereference
  /\ JavaBootClasspath None forceEmpty = Panic nil_dereference
  /\ JavaSystemModules None forceEmpty = Panic nil_dereference
  /\ Paths_ None = Panic nil_dereference
  /\ Strings None = Return None
  /\ DesugarBootClasspath None = None
  /\ DesugarClasspath None = None.
Proof. by repeat split. Qed.

(** ** The builders and the module context *)

Lemma JavaSystemModules_many (c : classpath) (forceEmpty : bool) :
  (1 <? len c) = true ->
  JavaSystemModules (Some c) forceEmpty = Panic "more than one system module".
Proof.
  intros Hc. destruct c as [[|p [|p' ps]]|]; try discriminate; done.
Qed.

Lemma JavaSystemModules_few (c : classpath) (forceEmpty : bool) :
  (1 <? len c) = false ->
  exists s, JavaSystemModules (Some c) forceEmpty = Return s.
Proof.
  intros Hc. destruct c as [[|p [|p' ps]]|]; try discriminate;
    destruct forceEmpty; by eexists.
Qed.

(** X8.  A compile panics in exactly one case, version tag [1.9] with more
    than one system module; the message is [more than one system module]
    and the context is left as it was.  In every other case, also with
    several system modules under another tag, it returns and has declared
    one statement. *)
Theorem compile_panics_only_on_system_modules
    (ctx : ModuleContext) (outputFile : Path) (srcFiles : Paths)
    (srcJars : classpath) (flags : javaBuilderFlags) (deps : Paths)
    (intermediatesSuffix desc : string) (r : Rule) (st : actions) :
  let run :=
    transformJavaToClasses ctx outputFile srcFiles srcJars flags deps
      intermediatesSuffix desc r st in
  if String.eqb (javaVersion flags) "1.9" && (1 <? len (systemModules flags))
  then run = (Panic "more than one system module", st)
  else exists b, run = declared st b /\ rule b = r /\ Inputs b = srcFiles.
Proof.
  intros run.
  pose proof (transformJavaToClasses_run ctx outputFile srcFiles srcJars flags
                deps intermediatesSuffix desc r st) as Hrun.
  fold run in Hrun. unfold bootArg in Hrun.
  destruct (String.eqb (javaVersion flags) "1.9"); simpl.
  - destruct (1 <? len (systemModules flags)) eqn:Hlen.
    + by rewrite (JavaSystemModules_many _ _ Hlen) in Hrun.
    + destruct (JavaSystemModules_few _ (Device ctx) Hlen) as [s Hs].
      rewrite Hs in Hrun. destruct Hrun as (b & Hb & Hr & _ & _ & _ & Hi & _).
      by exists b.
  - rewrite JavaBootClasspath_Some in Hrun.
    destruct Hrun as (b & Hb & Hr & _ & _ & _ & Hi & _). by exists b.
Qed.

Ltac solve_well_formed :=
  split;
  [ cbn [Args rule argNames]; rewrite ?dom_insert_L, dom_empty_L;
    cbn [list_to_set foldr]; set_solver
  | cbn [rule]; vm_compute variables;
    repeat (apply Forall_cons; split;
            [first [ by left; repeat constructor
                   | by right; left
                   | by right; right; left
                   | by right; right; right ]|]);
    by apply Forall_nil ].

Lemma keeps_declared (st : actions) (b : ModuleBuildParams) :
  well_formed b -> keeps st (declared st b).2.
Proof.
  intros Hb. split; [done|]. exists [b]. by repeat split; auto.
Qed.

Lemma keeps_nothing (st : actions) : keeps st st.
Proof. split; [done|]. exists []. rewrite app_nil_r. by repeat split; auto. Qed.

Lemma compile_well_formed
    (ctx : ModuleContext) (outputFile : Path) (srcFiles : Paths)
    (srcJars : classpath) (flags : javaBuilderFlags) (deps : Paths)
    (intermediatesSuffix desc : string) (r : Rule) (s : string)
    (b : ModuleBuildParams) :
  r = javac \/ r = errorprone ->
  compiles_with ctx outputFile srcFiles srcJars flags deps intermediatesSuffix
    desc r s b ->
  well_formed b.
Proof.
  intros Hr (Hrule & _ & _ & _ & _ & _ & _ & Hargs).
  unfold well_formed. rewrite Hargs, Hrule.
  destruct Hr as [-> | ->]; solve_well_formed.
Qed.

Lemma compile_keeps
    (ctx : ModuleContext) (outputFile : Path) (srcFiles : Paths)
    (srcJars : classpath) (flags : javaBuilderFlags) (deps : Paths)
    (intermediatesSuffix desc : string) (r : Rule) (st : actions) :
  r = javac \/ r = errorprone ->
  keeps st (transformJavaToClasses ctx outputFile srcFiles srcJars flags deps
              intermediatesSuffix desc r st).2.
Proof.
  intros Hr.
  pose proof (transformJavaToClasses_run ctx outputFile srcFiles srcJars flags
                deps intermediatesSuffix desc r st) as Hrun.
  cbv zeta in Hrun. destruct (bootArg ctx flags) as [s|msg].
  - destruct Hrun as (b & -> & Hb). apply keeps_declared.
    by eapply compile_well_formed.
  - rewrite Hrun. apply keeps_nothing.
Qed.

(** X9.  Whatever they are called with, the builders keep the context in
    order: the statements declared before stay in place, at most one
    statement is added, it carries exactly the arguments its rule names,
    every variable of the rule's command is one of these arguments, [$in],
    [$out] or a [config] variable, and no error is reported; only
    [RunErrorProne] adds an error, the one about the missing jar when the
    jar is not configured. *)
Theorem builders_keep_context
    (cfg : Config) (ctx : ModuleContext) (outputFile classesJar rulesFile : Path)
    (srcFiles jars deps : Paths) (srcJars : classpath) (jarArgs : slice string)
    (manifest : OptionalPath) (stripDirs : bool) (flags : javaBuilderFlags)
    (st : actions) :
  keeps st (TransformJavaToClasses ctx outputFile srcFiles srcJars flags deps st).2
  /\ keeps st (TransformResourcesToJar ctx outputFile jarArgs deps st).2
  /\ keeps st (TransformJarsToJar ctx outputFile jars manifest stripDirs st).2
  /\ keeps st (TransformDesugar ctx outputFile classesJar flags st).2
  /\ keeps st (TransformClassesJarToDexJar ctx outputFile classesJar flags st).2
  /\ keeps st (TransformJarJar ctx outputFile classesJar rulesFile st).2
  /\ keeps (if String.eqb (ErrorProneJar cfg) EmptyString
            then reported st missing_error_prone else st)
       (RunErrorProne cfg ctx outputFile srcFiles srcJars flags st).2.
Proof.
  split; [apply compile_keeps; by left|].
  split; [apply keeps_declared; solve_well_formed|].
  split.
  { unfold TransformJarsToJar. destruct manifest, stripDirs;
      apply keeps_declared; solve_well_formed. }
  split; [apply keeps_declared; solve_well_formed|].
  split; [apply keeps_declared; solve_well_formed|].
  split; [apply keeps_declared; solve_well_formed|].
  unfold RunErrorProne.
  destruct (String.eqb (ErrorProneJar cfg) EmptyString).
  - apply (compile_keeps ctx outputFile srcFiles srcJars flags None
             "-errorprone" "errorprone" errorprone
             (reported st missing_error_prone)). by right.
  - apply (compile_keeps ctx outputFile srcFiles srcJars flags None
             "-errorprone" "errorprone" errorprone st). by right.
Qed.

(** X10.  With the Error Prone jar configured, [RunErrorProne] reports no
    error and does what the plain compile does on the same sources, source
    jars and flags without extra dependencies: both panic alike, or both
    declare one statement with the same output, inputs, implicit
    dependencies and arguments, except that the rule is [errorprone] and
    the two intermediate directories carry the suffix [-errorprone]. *)
Theorem RunErrorProne_like_javac
    (cfg : Config) (ctx : ModuleContext) (outputFile : Path)
    (srcFiles : Paths) (srcJars : classpath) (flags : javaBuilderFlags)
    (st : actions) :
  ErrorProneJar cfg <> EmptyString ->
  let ep := RunErrorProne cfg ctx outputFile srcFiles srcJars flags st in
  let jc := TransformJavaToClasses ctx outputFile srcFiles srcJars flags None st in
  match bootArg ctx flags with
  | Panic msg => ep = (Panic msg, st) /\ jc = (Panic msg, st)
  | Return _ =>
      exists be bj,
        ep = declared st be /\ jc = declared st bj
        /\ rule be = errorprone /\ rule bj = javac
        /\ Output be = Output bj /\ Inputs be = Inputs bj
        /\ elems (Implicits be) = elems (Implicits bj)
        /\ (forall name : string,
              name <> "outDir" -> name <> "annoDir" ->
              Args be !! name = Args bj !! name)
        /\ Args be !! "outDir"
           = Some (String (PathForModuleOut ctx "classes-errorprone"))
        /\ Args bj !! "outDir" = Some (String (PathForModuleOut ctx "classes"))
        /\ Args be !! "annoDir"
           = Some (String (PathForModuleOut ctx "anno-errorprone"))
        /\ Args bj !! "annoDir" = Some (String (PathForModuleOut ctx "anno"))
  end.
Proof.
  intros Hjar ep jc.
  assert (Hep : ep = transformJavaToClasses ctx outputFile srcFiles srcJars
                       flags None "-errorprone" "errorprone" errorprone st).
  { subst ep. unfold RunErrorProne.
    apply String.eqb_neq in Hjar. by rewrite Hjar. }
  pose proof (transformJavaToClasses_run ctx outputFile srcFiles srcJars flags
                None "-errorprone" "errorprone" errorprone st) as He.
  pose proof (transformJavaToClasses_run ctx outputFile srcFiles srcJars flags
                None EmptyString "javac" javac st) as Hj.
  cbv zeta in He, Hj. rewrite <- Hep in He.
  change (transformJavaToClasses ctx outputFile srcFiles srcJars flags None
            EmptyString "javac" javac st) with jc in Hj.
  destruct (bootArg ctx flags) as [s|msg]; [|done].
  destruct He as (be & Hbe & Hre & _ & Hoe & _ & Hie & _ & Hde & Hae).
  destruct Hj as (bj & Hbj & Hrj & _ & Hoj & _ & Hij & _ & Hdj & Haj).
  exists be, bj.
  repeat (split; [congruence|]).
  rewrite Hae, Haj. split.
  - intros name Ho Ha. rewrite !lookup_insert.
    repeat case_decide; congruence.
  - by repeat split.
Qed.

Lemma RunErrorProne_like_javac_witness :
  ErrorProneJar (ex_cfg "error_prone.jar") <> EmptyString
  /\ exists be bj,
       RunErrorProne (ex_cfg "error_prone.jar") (ex_ctx true) ex_out ex_srcs
         None ex_flags18 ex_st = declared ex_st be
       /\ TransformJavaToClasses (ex_ctx true) ex_out ex_srcs None ex_flags18
            None ex_st = declared ex_st bj
       /\ Args be !! "outDir" = Some "out/m/classes-errorprone"
       /\ Args bj !! "outDir" = Some "out/m/classes".
Proof.
  assert (Hjar : ErrorProneJar (ex_cfg "error_prone.jar") <> EmptyString)
    by discriminate.
  split; [exact Hjar|].
  destruct (RunErrorProne_like_javac (ex_cfg "error_prone.jar") (ex_ctx true)
              ex_out ex_srcs None ex_flags18 ex_st Hjar)
    as (be & bj & He & Hj & _ & _ & _ & _ & _ & _ & Hoe & Hoj & _).
  exists be, bj. split; [exact He|]. split; [exact Hj|].
  split; [exact Hoe | exact Hoj].
Defined.

(** ** The commands of the other rules *)

(** X11.  Dexing declares one [dx] statement on the classes jar alone,
    without implicit dependencies.  Its command removes and recreates the
    [dex] directory of the module, runs dx on the jar into it, zips the
    directory to [classes.dex.jar], and merges that with the input jar
    into the output while stripping [*.class]. *)
Theorem TransformClassesJarToDexJar_command
    (cfg : Config) (ctx : ModuleContext) (outputFile classesJar : Path)
    (flags : javaBuilderFlags) (st : actions) :
  let outDir := String (PathForModuleOut ctx "dex") in
  exists b,
    TransformClassesJarToDexJar ctx outputFile classesJar flags st
    = declared st b
    /\ rule b = dx
    /\ explicitInputs b = [classesJar]
    /\ implicitDeps b = []
    /\ command cfg b
       = "rm -rf " +:+ dquote +:+ outDir +:+ dquote
         +:+ " && mkdir -p " +:+ dquote +:+ outDir +:+ dquote +:+ " && "
         +:+ configVar cfg "config.DxCmd" +:+ " --dex --output=" +:+ outDir
         +:+ " " +:+ dxFlags flags +:+ " " +:+ String classesJar +:+ " && "
         +:+ configVar cfg "config.SoongZipCmd" +:+ " -o " +:+ outDir
         +:+ "/classes.dex.jar -C " +:+ outDir +:+ " -D " +:+ outDir +:+ " && "
         +:+ configVar cfg "config.MergeZipsCmd" +:+ " -D -stripFile "
         +:+ dquote +:+ "*.class" +:+ dquote +:+ " " +:+ String outputFile
         +:+ " " +:+ outDir +:+ "/classes.dex.jar " +:+ String classesJar.
Proof.
  intros outDir. eexists. split; [reflexivity|].
  repeat (split; [reflexivity|]).
  unfold command. cbn [rule Command dx render expand].
  rewrite string_app_empty_r. reflexivity.
Qed.

(** X12.  Renaming declares one [jarjar] statement on the classes jar
    with the rules file as its implicit dependency; the command runs the
    jarjar tool with [process], the rules file, the input and the
    output. *)
Theorem TransformJarJar_command
    (cfg : Config) (ctx : ModuleContext) (outputFile classesJar rulesFile : Path)
    (st : actions) :
  exists b,
    TransformJarJar ctx outputFile classesJar rulesFile st = declared st b
    /\ rule b = jarjar
    /\ explicitInputs b = [classesJar]
    /\ implicitDeps b = [rulesFile]
    /\ command cfg b
       = configVar cfg "config.JavaCmd" +:+ " -jar "
         +:+ configVar cfg "config.JarjarCmd" +:+ " process "
         +:+ String rulesFile +:+ " " +:+ String classesJar +:+ " "
         +:+ String outputFile.
Proof.
  eexists. split; [reflexivity|].
  repeat (split; [reflexivity|]).
  unfold command. cbn [rule Command jarjar render expand].
  rewrite string_app_empty_r. reflexivity.
Qed.

(** X13.  Archiving resources declares one [jar] statement without
    inputs, with the caller's dependencies as implicit dependencies; the
    command is the zip tool with [-jar -o], the output, and the archiver
    arguments in their order separated by spaces. *)
Theorem TransformResourcesToJar_command
    (cfg : Config) (ctx : ModuleContext) (outputFile : Path)
    (jarArgs : slice string) (deps : Paths) (st : actions) :
  exists b,
    TransformResourcesToJar ctx outputFile jarArgs deps st = declared st b
    /\ rule b = jar
    /\ explicitInputs b = []
    /\ implicitDeps b = elems deps
    /\ command cfg b
       = configVar cfg "config.SoongZipCmd" +:+ " -jar -o "
         +:+ String outputFile +:+ " " +:+ strings.Join (elems jarArgs) " ".
Proof.
  eexists. split; [reflexivity|].
  repeat (split; [first [reflexivity | apply app_nil_r]|]).
  unfold command. cbn [rule Command jar render expand].
  rewrite string_app_empty_r. reflexivity.
Qed.

(** X14.  The command of a desugar removes and recreates the module's
    [desugar_dumped_classes] directory, passes [--add-opens
    java.base/java.lang.invoke=ALL-UNNAMED] to java exactly when the
    configuration uses OpenJDK 9, and gives the desugar jar the per-entry
    boot-classpath flags, the per-entry classpath flags, the desugar flags
    of the module, the classes jar as [-i] and the output as [-o]. *)
Theorem TransformDesugar_command
    (cfg : Config) (ctx : ModuleContext) (outputFile classesJar : Path)
    (flags : javaBuilderFlags) (st : actions) :
  let dumpDir := String (PathForModuleOut ctx "desugar_dumped_classes") in
  exists b,
    TransformDesugar ctx outputFile classesJar flags st = declared st b
    /\ explicitInputs b = [classesJar]
    /\ command cfg b
       = "rm -rf " +:+ dumpDir +:+ " && mkdir -p " +:+ dumpDir +:+ " && "
         +:+ configVar cfg "config.JavaCmd"
         +:+ " -Djdk.internal.lambda.dumpProxyClasses=$(cd " +:+ dumpDir
         +:+ " && pwd) "
         +:+ (if UseOpenJDK9 ctx
              then "--add-opens java.base/java.lang.invoke=ALL-UNNAMED"
              else EmptyString)
         +:+ " -jar " +:+ configVar cfg "config.DesugarJar" +:+ " "
         +:+ strings.Join
               (((fun v => "--bootclasspath_entry " +:+ String v)
                   <$> elems (bootClasspath flags))
                ++ ((fun v => "--classpath_entry " +:+ String v)
                      <$> elems (classpath_ flags)))
               " "
         +:+ " " +:+ desugarFlags flags
         +:+ " -i " +:+ String classesJar +:+ " -o " +:+ String outputFile.
Proof.
  intros dumpDir. eexists. split; [reflexivity|].
  split; [reflexivity|].
  unfold command. cbn [rule Command desugar render expand].
  rewrite string_app_empty_r.
  match goal with
  | |- context [value cfg ?b0 _] => set (b := b0)
  end.
  assert (Hflags : value cfg b "classpathFlags"
                   = strings.Join
                       (elems
                          (append
                             (append None
                                (elems (DesugarBootClasspath
                                          (Some (bootClasspath flags)))))
                             (elems (DesugarClasspath
                                       (Some (classpath_ flags))))))
                       " ") by reflexivity.
  rewrite Hflags, !elems_append, DesugarBootClasspath_elems,
    DesugarClasspath_elems.
  reflexivity.
Qed.

(** X15.  In a merge the manifest, when there is one, gives the argument
    [-m] with its path and is the one implicit dependency; stripping
    directories gives [-D], after the manifest argument; with neither the
    argument text is empty and there is no implicit dependency. *)
Theorem TransformJarsToJar_manifest
    (ctx : ModuleContext) (outputFile : Path) (jars : Paths)
    (manifest : OptionalPath) (stripDirs : bool) (st : actions) :
  exists b,
    TransformJarsToJar ctx outputFile jars manifest stripDirs st = declared st b
    /\ Args b !! "jarArgs"
       = Some (match manifest, stripDirs with
               | Some m, true => "-m " +:+ String m +:+ " -D"
               | Some m, false => "-m " +:+ String m
               | None, true => "-D"
               | None, false => EmptyString
               end)
    /\ Implicits b = (fun m => [m]) <$> manifest.
Proof.
  unfold TransformJarsToJar.
  destruct manifest as [m|], stripDirs;
    (eexists; split; [reflexivity|]); (split; [|reflexivity]);
    cbn [Args]; rewrite lookup_insert_eq; cbn;
    by rewrite ?string_app_assoc.
Qed.

(** ** The response file of a compile *)

Lemma value_out cfg b :
  bool_decide ("out" ∈ argNames (rule b)) = false ->
  value cfg b "out" = String (Output b).
Proof. intros H. unfold value. by rewrite H. Qed.

Lemma value_in cfg b :
  bool_decide ("in" ∈ argNames (rule b)) = false ->
  value cfg b "in" = strings.Join (String <$> explicitInputs b) " ".
Proof. intros H. unfold value. by rewrite H. Qed.

Lemma value_config cfg b (name : string) :
  bool_decide (name ∈ argNames (rule b)) = false ->
  String.eqb name "out" = false -> String.eqb name "in" = false ->
  value cfg b name = configVar cfg name.
Proof. intros H Ho Hi. unfold value. by rewrite H, Ho, Hi. Qed.

(** X16.  A compile that returns passes its sources through the response
    file only: the file is the output's path with [.rsp] appended, what is
    written to it is the source files in their order separated by spaces,
    and the command, which names the file after [@], carries the
    javac flags, the sourcepath, the boot rendering and the classpath in
    this order, then the version tag as both [-source] and [-target],
    compiles into the module's [classes] and [anno] directories, which it
    removes and recreates first, and zips [classes] to the output. *)
Theorem compile_command
    (cfg : Config) (ctx : ModuleContext) (outputFile : Path)
    (srcFiles : Paths) (srcJars : classpath) (flags : javaBuilderFlags)
    (deps : Paths) (st : actions) :
  let outDir := String (PathForModuleOut ctx "classes") in
  let annoDir := String (PathForModuleOut ctx "anno") in
  let run :=
    TransformJavaToClasses ctx outputFile srcFiles srcJars flags deps st in
  match bootArg ctx flags with
  | Panic msg => run = (Panic msg, st)
  | Return boot =>
      exists b sourcepath classpath,
        run = declared st b
        /\ JavaSourcepath (Some srcJars) = Return sourcepath
        /\ JavaClasspath (Some (classpath_ flags)) = Return classpath
        /\ rspfile cfg b = String outputFile +:+ ".rsp"
        /\ rspfileContent cfg b = strings.Join (String <$> elems srcFiles) " "
        /\ command cfg b
           = "rm -rf " +:+ dquote +:+ outDir +:+ dquote +:+ " "
             +:+ dquote +:+ annoDir +:+ dquote
             +:+ " && mkdir -p " +:+ dquote +:+ outDir +:+ dquote +:+ " "
             +:+ dquote +:+ annoDir +:+ dquote +:+ " && "
             +:+ configVar cfg "config.JavacWrapper"
             +:+ configVar cfg "config.JavacCmd" +:+ " "
             +:+ configVar cfg "config.JavacHeapFlags" +:+ " "
             +:+ configVar cfg "config.CommonJdkFlags" +:+ " "
             +:+ javacFlags flags +:+ " " +:+ sourcepath +:+ " "
             +:+ boot +:+ " " +:+ classpath
             +:+ " -source " +:+ javaVersion flags
             +:+ " -target " +:+ javaVersion flags
             +:+ " -d " +:+ outDir +:+ " -s " +:+ annoDir
             +:+ " @" +:+ String outputFile +:+ ".rsp && "
             +:+ configVar cfg "config.SoongZipCmd" +:+ " -jar -o "
             +:+ String outputFile +:+ " -C " +:+ outDir +:+ " -D " +:+ outDir
  end.
Proof.
  intros outDir annoDir run.
  pose proof (transformJavaToClasses_run ctx outputFile srcFiles srcJars flags
                deps EmptyString "javac" javac st) as Hrun.
  cbv zeta in Hrun. fold run in Hrun.
  destruct (bootArg ctx flags) as [boot|msg]; [|exact Hrun].
  destruct Hrun as (b & Hb & Hr & _ & Ho & Hin & Hins & _ & _ & Hargs).
  exists b. eexists. eexists.
  split; [exact Hb|].
  split; [apply JavaSourcepath_Some|].
  split; [apply JavaClasspath_Some|].
  assert (Hout : value cfg b "out" = String outputFile).
  { rewrite value_out, Ho; [done | by rewrite Hr]. }
  assert (Harg : forall name v,
             bool_decide (name ∈ argNames javac) = true ->
             Args b !! name = Some v -> value cfg b name = v).
  { intros name v Hn Hv. apply value_arg; [|done].
    rewrite Hr. by apply bool_decide_eq_true in Hn. }
  assert (Hcfg : forall name,
             bool_decide (name ∈ argNames javac) = false ->
             String.eqb name "out" = false -> String.eqb name "in" = false ->
             value cfg b name = configVar cfg name).
  { intros name Hn. apply value_config. by rewrite Hr. }
  split; [|split].
  - unfold rspfile. rewrite Hr. cbn [Rspfile javac render expand].
    by rewrite Hout.
  - unfold rspfileContent. rewrite Hr.
    cbn [RspfileContent javac render expand].
    rewrite string_app_empty_r, value_in by (by rewrite Hr).
    unfold explicitInputs. rewrite Hin, Hins. simpl option_list.
    by rewrite app_nil_r.
  - unfold command. rewrite Hr. cbn [Command javac render expand Q].
    rewrite Hout, string_app_empty_r.
    rewrite (Harg "outDir" outDir), (Harg "annoDir" annoDir),
      (Harg "javacFlags" (javacFlags flags)),
      (Harg "sourcepath" _ eq_refl ltac:(rewrite Hargs; by simplify_map_eq)),
      (Harg "bootClasspath" boot),
      (Harg "classpath" _ eq_refl ltac:(rewrite Hargs; by simplify_map_eq)),
      (Harg "javaVersion" (javaVersion flags)),
      !Hcfg;
      try reflexivity; try (rewrite Hargs; by simplify_map_eq).
Qed.

(** ** Renderings of several entries *)

Lemma JavaBootClasspath_render_witness :
  JavaBootClasspath (Some (Some [mkPath "core.jar"; mkPath "ext.jar";
                                 mkPath "framework.jar"])) false
  = Return "-bootclasspath core.jar:ext.jar:framework.jar"
  /\ JavaBootClasspath (Some (Some [mkPath "ext.jar"; mkPath "core.jar"])) true
     = Return "-bootclasspath ext.jar:core.jar".
Proof.
  split.
  - exact (JavaBootClasspath_render
             (Some [mkPath "core.jar"; mkPath "ext.jar"; mkPath "framework.jar"])
             false).
  - exact (JavaBootClasspath_render
             (Some [mkPath "ext.jar"; mkPath "core.jar"]) true).
Defined.

Lemma JavaProcessorpath_render_witness :
  JavaProcessorpath (Some (Some [mkPath "dagger.jar"; mkPath "auto.jar";
                                 mkPath "lint.jar"]))
  = Return "-processorpath dagger.jar:auto.jar:lint.jar"
  /\ JavaProcessorpath (Some (Some [mkPath "auto.jar"; mkPath "dagger.jar"]))
     = Return "-processorpath auto.jar:dagger.jar".
Proof.
  split.
  - exact (JavaProcessorpath_render
             (Some [mkPath "dagger.jar"; mkPath "auto.jar"; mkPath "lint.jar"])).
  - exact (JavaProcessorpath_render
             (Some [mkPath "auto.jar"; mkPath "dagger.jar"])).
Defined.

Lemma TransformResourcesToJar_command_witness :
  exists b,
    TransformResourcesToJar (ex_ctx true) ex_out
      (Some ["-C res"; "-f res/a.txt"; "-f res/b.txt"]) None ex_st
    = declared ex_st b
    /\ command (ex_cfg EmptyString) b
       = "${config.SoongZipCmd} -jar -o out/m/classes.jar -C res -f res/a.txt -f res/b.txt".
Proof.
  destruct (TransformResourcesToJar_command (ex_cfg EmptyString) (ex_ctx true)
              ex_out (Some ["-C res"; "-f res/a.txt"; "-f res/b.txt"]) None
              ex_st)
    as (b & Hb & _ & _ & _ & Hc).
  exists b. split; [exact Hb | exact Hc].
Defined.

Lemma TransformDesugar_command_witness :
  exists b,
    TransformDesugar (ex_ctx true) ex_out (mkPath "classes.jar")
      (ex_flags "1.8" (Some [mkPath "core.jar"; mkPath "ext.jar"])
         (Some [mkPath "lib.jar"; mkPath "util.jar"]) None)
      ex_st
    = declared ex_st b
    /\ command (ex_cfg EmptyString) b
       = "rm -rf out/m/desugar_dumped_classes && mkdir -p out/m/desugar_dumped_classes && ${config.JavaCmd} -Djdk.internal.lambda.dumpProxyClasses=$(cd out/m/desugar_dumped_classes && pwd)  -jar ${config.DesugarJar} --bootclasspath_entry core.jar --bootclasspath_entry ext.jar --classpath_entry lib.jar --classpath_entry util.jar  -i classes.jar -o out/m/classes.jar".
Proof.
  destruct (TransformDesugar_command (ex_cfg EmptyString) (ex_ctx true) ex_out
              (mkPath "classes.jar")
              (ex_flags "1.8" (Some [mkPath "core.jar"; mkPath "ext.jar"])
                 (Some [mkPath "lib.jar"; mkPath "util.jar"]) None)
              ex_st)
    as (b & Hb & _ & Hc).
  exists b. split; [exact Hb | exact Hc].
Defined.

Lemma compile_command_witness :
  exists b,
    TransformJavaToClasses (ex_ctx true) ex_out
      (Some [mkPath "A.java"; mkPath "B.java"; mkPath "C.java"])
      (Some [mkPath "x.srcjar"; mkPath "y.srcjar"])
      (ex_flags "1.8" (Some [mkPath "core.jar"; mkPath "ext.jar"])
         (Some [mkPath "lib.jar"; mkPath "util.jar"]) None)
      None ex_st
    = declared ex_st b
    /\ rspfile (ex_cfg EmptyString) b = "out/m/classes.jar.rsp"
    /\ rspfileContent (ex_cfg EmptyString) b = "A.java B.java C.java"
    /\ String.index 0
         ("-Xlint -sourcepath x.srcjar:y.srcjar -bootclasspath core.jar:ext.jar"
          +:+ " -classpath lib.jar:util.jar -source 1.8 -target 1.8 -d ")
         (command (ex_cfg EmptyString) b)
       <> None.
Proof.
  destruct (compile_command (ex_cfg EmptyString) (ex_ctx true) ex_out
              (Some [mkPath "A.java"; mkPath "B.java"; mkPath "C.java"])
              (Some [mkPath "x.srcjar"; mkPath "y.srcjar"])
              (ex_flags "1.8" (Some [mkPath "core.jar"; mkPath "ext.jar"])
                 (Some [mkPath "lib.jar"; mkPath "util.jar"]) None)
              None ex_st)
    as (b & sp & cp & Hb & Hsp & Hcp & Hr & Hrc & Hc).
  exists b. split; [exact Hb|]. split; [exact Hr|]. split; [exact Hrc|].
  rewrite Hc. injection Hsp as <-. injection Hcp as <-.
  vm_compute. discriminate.
Defined.
